(** * kodiak/pull_request.py: a shallow embedding and the properties of its specification

    The development follows the layout of the Python module: the string
    helpers Python provides, the data types of the modules it imports
    ([kodiak.config], [kodiak.queries], [kodiak.errors]), then the functions
    of [pull_request.py] in source order, then the theorems.

    Python's [str] is embedded as [string]; an element of the string stands
    for one character.  Python's [int] is [Z] where it is a number the
    platform hands out, and [nat] where it is an offset into a string.
    A [dict] with string keys is a [gmap string _].  The methods of the class
    [PR] mutate [self.event] and talk to the platform: they live in a state
    and exception monad over the object and the log of everything the module
    has emitted. *)

From Stdlib Require Import ZArith String Ascii List Lia Bool.
From stdpp Require Import base gmap strings list pretty.

Open Scope string_scope.

(** ** Python strings *)

Module Str.

(** ["\r"] *)
Definition CR : ascii := "013"%char.

(** [s[:n]] for [n >= 0] *)
Fixpoint slice_to (s : string) (n : nat) : string :=
  match n, s with
  | S n', String c s' => String c (slice_to s' n')
  | _, _ => EmptyString
  end.

(** [s[n:]] for [n >= 0] *)
Fixpoint slice_from (s : string) (n : nat) : string :=
  match n, s with
  | S n', String _ s' => slice_from s' n'
  | _, _ => s
  end.

(** [s[a:b]] for [a, b >= 0]; empty when [b <= a] *)
Definition slice (s : string) (a b : nat) : string :=
  slice_to (slice_from s a) (b - a).

(** [s.replace(c, EMPTY)] for a one-character [c]: every [c] is dropped *)
Fixpoint remove_char (c : ascii) (s : string) : string :=
  match s with
  | EmptyString => EmptyString
  | String d s' =>
      if Ascii.eqb d c then remove_char c s' else String d (remove_char c s')
  end.

(** [c in s] *)
Fixpoint contains_char (c : ascii) (s : string) : bool :=
  match s with
  | EmptyString => false
  | String d s' => Ascii.eqb d c || contains_char c s'
  end.

(** [s.endswith(suffix)] *)
Definition endswith (s suffix : string) : bool :=
  String.eqb (slice_from s (String.length s - String.length suffix)) suffix.

(** [sub in s] *)
Definition contains (sub s : string) : bool :=
  match String.index 0 sub s with
  | Some _ => true
  | None => false
  end.

(** truthiness of a [str]: only the empty string is falsy *)
Definition truthy (s : string) : bool :=
  match s with EmptyString => false | String _ _ => true end.

End Str.

(** ** Python values this module passes on without looking inside *)

#[warnings="-register-all"]
Inductive PyObject : Type :=
| PyNone
| PyBool (b : bool)
| PyInt (z : Z)
| PyStr (s : string)
| PyList (items : list PyObject)
| PyInstance (class_name : string) (fields : list (string * PyObject)).

(** Exceptions that leave a function of this module. *)
Inductive PyExn : Type :=
| NotImplementedError
| Exception (message : string)
| AttributeError (message : string).

Inductive Result (A : Type) : Type :=
| Return (a : A)
| Raise (e : PyExn).
Arguments Return {A} a.
Arguments Raise {A} e.

(** ** kodiak.config *)

Module config.

(** Modelled from the spec: the enumeration [BodyText] of [kodiak.config]
    is not part of the sources at hand; section 4.1 names its three
    formats. *)
Inductive BodyText := markdown | plain_text | html.

(** What a caller can pass where a [BodyText] is expected: Python does not
    enforce the annotation.  [NotAFormat] stands for a value that compares
    unequal to each of the three members. *)
Inductive body_type_value :=
| Format (b : BodyText)
| NotAFormat (o : PyObject).

(** Modelled from the spec: [MergeBodyStyle] of [kodiak.config]; section
    4.3 names "use PR body" and "empty", the body style being one
    enumerated choice; [body_style_unset] is the choice that is neither. *)
Inductive MergeBodyStyle := pull_request_body | empty | body_style_unset.

(** Modelled from the spec: [MergeTitleStyle] of [kodiak.config]; section
    4.3 names "use PR title"; [title_style_unset] is the choice made when
    no title style is configured. *)
Inductive MergeTitleStyle := pull_request_title | title_style_unset.

(** A member of the merge method enumeration, with its [.value]. *)
Record MergeMethod := { value : string }.

Record MergeMessage := {
  title : MergeTitleStyle;
  body : MergeBodyStyle;
  include_pr_number : bool;
  body_type : body_type_value;
  strip_html_comments : bool;
}.

Record Merge := {
  method : MergeMethod;
  message : MergeMessage;
  automerge_label : string;
  require_automerge_label : bool;
  notify_on_conflict : bool;
  delete_branch_on_merge : bool;
}.

Record V1 := { merge : Merge }.

#[global] Instance BodyText_eq_dec : EqDecision BodyText.
Proof. solve_decision. Defined.
#[global] Instance MergeBodyStyle_eq_dec : EqDecision MergeBodyStyle.
Proof. solve_decision. Defined.
#[global] Instance MergeTitleStyle_eq_dec : EqDecision MergeTitleStyle.
Proof. solve_decision. Defined.

(** [body_type == BodyText.x]: a value that is no [BodyText] member equals
    none of them. *)
Definition body_type_is (v : body_type_value) (b : BodyText) : bool :=
  match v with
  | Format b' => bool_decide (b' = b)
  | NotAFormat _ => false
  end.

End config.

(** ** kodiak.queries *)

Module queries.

Record PullRequest := {
  number : Z;
  title : string;
  body : string;
  bodyText : string;
  bodyHTML : string;
  latest_sha : string;
  baseRefName : string;
  headRefName : string;
  isCrossRepository : bool;
}.

(** [event.config] is a [V1] or the error met while reading it. *)
Inductive ConfigOrError :=
| Valid (c : config.V1)
| Invalid (error : PyObject).

Record EventInfoResponse := {
  config : ConfigOrError;
  config_str : string;
  config_file_expression : string;
  pull_request : PullRequest;
  head_exists : bool;
  branch_protection : PyObject;
  review_requests : PyObject;
  reviews : PyObject;
  status_contexts : PyObject;
  check_runs : PyObject;
  valid_signature : bool;
  valid_merge_methods : PyObject;
}.

(** What comes back from an HTTP request. *)
Record Response := { status_code : Z }.

(** Everything the module sends out, in the order it is sent: the lines
    it logs and the requests it makes through [Client], [get_headers] and
    [client.session]. *)
Inductive Call :=
| Log (level message : string)
| GetDefaultBranchName
| GetEventInfo (config_file_expression : string) (pr_number : Z)
| CreateNotification (head_sha message : string) (summary : option string)
| DeleteBranch (branch : string)
| MergeBranch (head base : string)
| MergePullRequest (number : Z) (body : gmap string string)
| GetPullRequest (number : Z)
| GetHeaders (installation_id : string)
| SessionDelete (url : string) (headers : PyObject)
| SessionPost (url : string) (json : gmap string string) (headers : PyObject).

(** The platform behind [Client]: what it answers to a request may depend
    on everything sent before. *)
Record Client := {
  get_default_branch_name : list Call -> option string;
  get_event_info : list Call -> string -> Z -> option EventInfoResponse;
  merge_branch : list Call -> string -> string -> Response;
  merge_pull_request : list Call -> Z -> gmap string string -> Response;
  session_delete : list Call -> string -> PyObject -> Response;
  session_post :
    list Call -> string -> gmap string string -> PyObject -> Response;
}.

End queries.

(** ** kodiak.errors *)

Module errors.

(** Modelled from the spec: the exception classes of [kodiak.errors] are
    not part of the sources at hand; section 3 gives them as a closed
    tagged set, each with the data used downstream. *)
Inductive Violation :=
| MissingSkippableChecks (checks : list string)
| NotQueueable
| MergeConflict
| BranchMerged
| MergeBlocked (reason : string)
| MissingAppID
| MissingGithubMergeabilityState
| WaitingForChecks (checks : list string)
| NeedsBranchUpdate.

End errors.

(** ** kodiak.pull_request *)

Definition CONFIG_FILE_PATH : string := ".kodiak.toml".

Inductive MergeabilityResponse :=
| OK
| NEEDS_UPDATE
| NEED_REFRESH
| NOT_MERGEABLE
| SKIPPABLE_CHECKS
| WAIT.

(** *** class CommentHTMLParser *)

Module CommentHTMLParser.

(** The state the subclass adds to [HTMLParser].  The state of the base
    class (its buffer, its position) is not kept: it is what [reset]
    clears, and every feed embedded here returns and is followed by
    [reset]. *)
Record t := { comments : list (nat * nat) }.

(** [__init__]: [HTMLParser.__init__] calls [reset]. *)
Definition init : t := {| comments := [] |}.

(** [handle_comment(tag)], called by [feed] with [self.offset] at the
    position it has reached. *)
Definition handle_comment (self : t) (offset : nat) (tag : string) : t :=
  let start_token_len := String.length "<!--" in
  let end_token_len := String.length "-->" in
  let tag_len := String.length tag in
  let end_ := start_token_len + tag_len + end_token_len in
  {| comments := (comments self ++ [(offset, end_ + offset)])%list |}.

Definition reset (self : t) : t := {| comments := [] |}.

End CommentHTMLParser.

(** *** What the module imports and does not define *)

Class Imports := {
  (** [markdown_html_finder.find_html_positions] *)
  find_html_positions : string -> list (nat * nat);
  (** [HTMLParser.feed] on a parser that was reset, for a text on which
      it returns: the calls of [handle_comment] it makes, each with
      [self.offset] at that moment and the text of the comment.  A feed
      that raises (the library does on some marked sections) is outside
      this embedding. *)
  html_feed : string -> list (nat * string);
  (** [str(o)] *)
  py_str : PyObject -> string;
  (** [repr(checks)] *)
  repr_checks : list string -> string;
  (** [str(e)] of an exception of [kodiak.errors] *)
  str_violation : errors.Violation -> string;
  (** [textwrap.dedent] *)
  dedent : string -> string;
  (** [kodiak.config_utils.get_markdown_for_config] *)
  get_markdown_for_config : PyObject -> string -> string -> string;
  (** [kodiak.app_config.GITHUB_APP_ID] *)
  GITHUB_APP_ID : PyObject;
  (** [kodiak.messages.FORKS_CANNOT_BE_UPDATED] *)
  FORKS_CANNOT_BE_UPDATED : string;
  (** [kodiak.queries.get_headers] *)
  get_headers : string -> PyObject;
  (** [kodiak.evaluation.mergeable]: returns nothing ([None]) or raises *)
  mergeable :
    config.V1 -> PyObject -> queries.PullRequest -> PyObject -> PyObject ->
    PyObject -> PyObject -> PyObject -> bool -> PyObject ->
    option errors.Violation;
}.

Definition DQUOTE : string := String "034"%char EmptyString.
Definition LF : string := String "010"%char EmptyString.
Definition EMPTY_STRING : string := EmptyString.

Definition result_bind {A B} (r : Result A) (k : A -> Result B) : Result B :=
  match r with
  | Return a => k a
  | Raise e => Raise e
  end.

Section functions.
Context `{Imports}.

(** The module-level [html_parser = CommentHTMLParser()]. *)
Definition html_parser : CommentHTMLParser.t := CommentHTMLParser.init.

(** [html_parser.feed(html_text)], when it returns *)
Definition feed (parser : CommentHTMLParser.t) (html_text : string)
  : CommentHTMLParser.t :=
  fold_left
    (fun p '(offset, tag) => CommentHTMLParser.handle_comment p offset tag)
    (html_feed html_text) parser.

(** One turn of the loop over [html_node_positions]. *)
Definition collect_comments (message : string)
    (acc : list (nat * nat) * CommentHTMLParser.t) (position : nat * nat)
  : list (nat * nat) * CommentHTMLParser.t :=
  let '(comment_locations, parser) := acc in
  let '(html_start, html_end) := position in
  let html_text := Str.slice message html_start html_end in
  let parser := feed parser html_text in
  let comment_locations :=
    (comment_locations ++
     map (fun '(comment_start, comment_end) =>
            (html_start + comment_start, html_start + comment_end))
         (CommentHTMLParser.comments parser))%list in
  (comment_locations, CommentHTMLParser.reset parser).

(** One turn of the loop over [reversed(comment_locations)]. *)
Definition cut_comment (new_message : string) (location : nat * nat)
  : string :=
  let '(comment_start, comment_end) := location in
  Str.slice_to new_message comment_start
  ++ Str.slice_from new_message comment_end.

(** The function body, with the module-level parser it finds and the one
    it leaves behind. *)
Definition strip_html_comments_from_markdown_with
    (parser : CommentHTMLParser.t) (raw_message : string)
  : string * CommentHTMLParser.t :=
  let message := Str.remove_char Str.CR raw_message in
  let html_node_positions := find_html_positions message in
  let '(comment_locations, parser) :=
    fold_left (collect_comments message) html_node_positions ([], parser) in
  let new_message :=
    fold_left cut_comment (rev comment_locations) message in
  (new_message, parser).

Definition strip_html_comments_from_markdown (raw_message : string)
  : string :=
  fst (strip_html_comments_from_markdown_with html_parser raw_message).


(** [str(body_type)], as the f-string renders it *)
Definition str_body_type (body_type : config.body_type_value) : string :=
  match body_type with
  | config.Format config.markdown => "BodyText.markdown"
  | config.Format config.plain_text => "BodyText.plain_text"
  | config.Format config.html => "BodyText.html"
  | config.NotAFormat o => py_str o
  end.

Definition get_body_content (body_type : config.body_type_value)
    (strip_html_comments : bool) (pull_request : queries.PullRequest)
  : Result string :=
  if config.body_type_is body_type config.markdown then
    let body := queries.body pull_request in
    if strip_html_comments then
      Return (strip_html_comments_from_markdown body)
    else Return body
  else if config.body_type_is body_type config.plain_text then
    Return (queries.bodyText pull_request)
  else if config.body_type_is body_type config.html then
    Return (queries.bodyHTML pull_request)
  else
    Raise (Exception ("Unknown body_type: " ++ str_body_type body_type)).

Definition get_merge_body (cfg : config.V1)
    (pull_request : queries.PullRequest) : Result (gmap string string) :=
  let message := config.message (config.merge cfg) in
  let merge_body : gmap string string :=
    {[ "merge_method" := config.value (config.method (config.merge cfg)) ]} in
  result_bind
    (if bool_decide (config.body message = config.pull_request_body) then
       result_bind
         (get_body_content (config.body_type message)
            (config.strip_html_comments message) pull_request)
         (fun body => Return (<["commit_message" := body]> merge_body))
     else Return merge_body)
    (fun merge_body =>
       let merge_body :=
         if bool_decide (config.body message = config.empty) then
           <["commit_message" := EMPTY_STRING]> merge_body
         else merge_body in
       let merge_body :=
         if bool_decide (config.title message = config.pull_request_title)
         then <["commit_title" := queries.title pull_request]> merge_body
         else merge_body in
       let merge_body :=
         if config.include_pr_number message
            && from_option Str.truthy false (merge_body !! "commit_title")
         then
           match merge_body !! "commit_title" with
           | Some commit_title =>
               <["commit_title" :=
                   commit_title ++ " (#" ++
                   pretty (queries.number pull_request) ++ ")"]> merge_body
           | None => merge_body
           end
         else merge_body in
       Return merge_body).

Definition create_git_revision_expression (branch file_path : string)
  : string :=
  branch ++ ":" ++ file_path.

End functions.

(** *** class PR *)

Module PR.

(** The fields of the dataclass; [log] is the logger bound in [__init__],
    its lines go to the log of calls. *)
Record t := {
  number : Z;
  owner : string;
  repo : string;
  installation_id : string;
  event : option queries.EventInfoResponse;
  client : queries.Client;
}.

(** What [b: object] can be. *)
Inductive object :=
| IsPR (b : t)
| NotPR (o : PyObject).

Definition __eq__ (self : t) (b : object) : Result bool :=
  match b with
  | NotPR _ => Raise NotImplementedError
  | IsPR b =>
      Return ((number self =? number b)%Z
              && String.eqb (owner self) (owner b)
              && String.eqb (repo self) (repo b)
              && String.eqb (installation_id self) (installation_id b))
  end.

Definition __init__ (number : Z) (owner repo installation_id : string)
    (client : queries.Client) : t :=
  {| number := number; owner := owner; repo := repo;
     installation_id := installation_id; client := client;
     event := None |}.

Definition __repr__ (self : t) : string :=
  "<PR path='" ++ owner self ++ "/" ++ repo self ++ "#"
  ++ pretty (number self) ++ "'>".


(** The object a method runs on and everything sent out so far. *)
Record World := { self : t; sent : list queries.Call }.

(** A method body: it may change the world and returns or raises. *)
Definition M (A : Type) : Type := World -> Result A * World.

Definition ret {A} (a : A) : M A := fun w => (Return a, w).

Definition bind {A B} (m : M A) (k : A -> M B) : M B :=
  fun w =>
    match m w with
    | (Return a, w') => k a w'
    | (Raise e, w') => (Raise e, w')
    end.

Definition raise {A} (e : PyExn) : M A := fun w => (Raise e, w).

Definition lift {A} (r : Result A) : M A := fun w => (r, w).

Declare Scope method_scope.
Delimit Scope method_scope with method.
Notation "x <- m ;; k" := (bind m (fun x => k))
  (at level 100, m at next level, right associativity) : method_scope.
Notation "m ;; k" := (bind m (fun _ => k))
  (at level 100, right associativity) : method_scope.

(** [self] *)
Definition get_self : M t := fun w => (Return (self w), w).

(** [self.event = e] *)
Definition set_event (e : option queries.EventInfoResponse) : M unit :=
  fun w =>
    let s := self w in
    (Return tt,
     {| self := {| number := number s; owner := owner s; repo := repo s;
                   installation_id := installation_id s;
                   event := e; client := client s |};
        sent := sent w |}).

(** A request: it is appended to what was sent, the answer is the one the
    platform gives after what was sent before.  The collaborator answers:
    a call that raises instead, which no method of the class catches, is
    outside this embedding, and everything proved of a method is proved of
    its runs in which every collaborator answers. *)
Definition request {A} (c : queries.Call)
    (answer : list queries.Call -> A) : M A :=
  fun w =>
    (Return (answer (sent w)),
     {| self := self w; sent := (sent w ++ [c])%list |}).

(** [self.log.<level>(message, ...)]: the line is kept, its keyword
    arguments are not. *)
Definition log (level message : string) : M unit :=
  request (queries.Log level message) (fun _ => tt).

(** [self.event.<attr>]: an attribute of [None] cannot be read. *)
Definition self_event : M queries.EventInfoResponse :=
  fun w =>
    match event (self w) with
    | Some e => (Return e, w)
    | None => (Raise (AttributeError "'NoneType' object has no attribute"), w)
    end.

(** [self.event.config.merge]: only a [V1] has it. *)
Definition self_event_config_merge : M config.Merge :=
  bind self_event (fun e =>
    match queries.config e with
    | queries.Valid cfg => ret (config.merge cfg)
    | queries.Invalid _ =>
        raise (AttributeError "object has no attribute 'merge'")
    end).

Open Scope method_scope.

Section methods.
Context `{Imports}.

Definition get_event : M (option queries.EventInfoResponse) :=
  self <- get_self;;
  default_branch_name <-
    request queries.GetDefaultBranchName
      (queries.get_default_branch_name (client self));;
  match default_branch_name with
  | None => ret None
  | Some default_branch_name =>
      let config_file_expression :=
        create_git_revision_expression default_branch_name
          CONFIG_FILE_PATH in
      request
        (queries.GetEventInfo config_file_expression (number self))
        (fun sent =>
           queries.get_event_info (client self) sent
             config_file_expression (number self))
  end.

Definition set_status (summary : string) (detail : option string)
    (markdown_content : option string) : M unit :=
  let message :=
    match detail with
    | Some detail => summary ++ " (" ++ detail ++ ")"
    | None => summary
    end in
  self <- get_self;;
  (match event self with
   | None =>
       log "info" "missing event. attempting to fetch it.";;
       e <- get_event;;
       set_event e
   | Some _ => ret tt
   end);;
  self <- get_self;;
  match event self with
  | None => log "error" "could not fetch event"
  | Some e =>
      log "info" ("setting status " ++ message);;
      request
        (queries.CreateNotification
           (queries.latest_sha (queries.pull_request e)) message
           markdown_content)
        (fun _ => tt)
  end.

Definition delete_label (label : string) : M bool :=
  log "info" "deleting label";;
  self <- get_self;;
  headers <-
    request (queries.GetHeaders (installation_id self))
      (fun _ => get_headers (installation_id self));;
  let url :=
    "https://api.github.com/repos/" ++ owner self ++ "/" ++ repo self
    ++ "/issues/" ++ pretty (number self) ++ "/labels/" ++ label in
  res <-
    request (queries.SessionDelete url headers)
      (fun sent => queries.session_delete (client self) sent url headers);;
  ret (negb (queries.status_code res =? 204)%Z).

Definition create_comment (body : string) : M bool :=
  log "info" "creating comment";;
  self <- get_self;;
  headers <-
    request (queries.GetHeaders (installation_id self))
      (fun _ => get_headers (installation_id self));;
  let url :=
    "https://api.github.com/repos/" ++ owner self ++ "/" ++ repo self
    ++ "/issues/" ++ pretty (number self) ++ "/comments" in
  let json : gmap string string := {[ "body" := body ]} in
  res <-
    request (queries.SessionPost url json headers)
      (fun sent =>
         queries.session_post (client self) sent url json headers);;
  ret (negb (queries.status_code res =? 200)%Z).

Definition notify_pr_creator : M bool :=
  self <- get_self;;
  match event self with
  | None => ret false
  | Some event =>
      match queries.config event with
      | queries.Invalid _ =>
          log "error" "config attribute was not a config";;
          ret false
      | queries.Valid cfg =>
          if negb (config.require_automerge_label (config.merge cfg))
          then ret false
          else
            let label := config.automerge_label (config.merge cfg) in
            deleted <- delete_label label;;
            if negb deleted then ret false
            else
              let body :=
                dedent
                  (LF ++ "        This PR currently has a merge conflict. Please resolve this and then re-add the `"
                   ++ label ++ "` label." ++ LF ++ "        ") in
              create_comment body
      end
  end.

(** [return response, self.event] *)
Definition return_with_event (response : MergeabilityResponse)
  : M (MergeabilityResponse * option queries.EventInfoResponse) :=
  self <- get_self;;
  ret (response, event self).

(** The [except] clauses of [mergeability], in source order. *)
Definition handle_violation (merging : bool) (e : errors.Violation)
  : M (MergeabilityResponse * option queries.EventInfoResponse) :=
  match e with
  | errors.MissingSkippableChecks checks =>
      log "info" "skippable checks";;
      set_status "🛑 not waiting for dont_wait_on_status_checks"
        (Some (repr_checks checks)) None;;
      return_with_event SKIPPABLE_CHECKS
  | errors.NotQueueable | errors.MergeConflict | errors.BranchMerged =>
      log "info" "not queueable, mergeconflict, or branch merged";;
      (match e with
       | errors.MergeConflict =>
           merge_config <- self_event_config_merge;;
           if config.notify_on_conflict merge_config
           then notify_pr_creator;; ret tt
           else ret tt
       | _ => ret tt
       end);;
      (match e with
       | errors.BranchMerged =>
           merge_config <- self_event_config_merge;;
           if config.delete_branch_on_merge merge_config
           then
             event <- self_event;;
             request
               (queries.DeleteBranch
                  (queries.headRefName (queries.pull_request event)))
               (fun _ => tt)
           else ret tt
       | _ => ret tt
       end);;
      set_status "🛑 cannot merge" (Some (str_violation e)) None;;
      return_with_event NOT_MERGEABLE
  | errors.MergeBlocked _ =>
      set_status ("🛑 " ++ str_violation e) None None;;
      return_with_event NOT_MERGEABLE
  | errors.MissingAppID => return_with_event NOT_MERGEABLE
  | errors.MissingGithubMergeabilityState =>
      log "info" "missing mergeability state, need refresh";;
      return_with_event NEED_REFRESH
  | errors.WaitingForChecks checks =>
      (if merging then
         set_status "⛴ attempting to merge PR"
           (Some ("waiting for checks: " ++ repr_checks checks)) None
       else ret tt);;
      return_with_event WAIT
  | errors.NeedsBranchUpdate =>
      event <- self_event;;
      if queries.isCrossRepository (queries.pull_request event) then
        set_status
          ("🚨 forks cannot be updated via the github api. Click "
           ++ DQUOTE ++ "Details" ++ DQUOTE ++ " for more info")
          None (Some FORKS_CANNOT_BE_UPDATED);;
        return_with_event NOT_MERGEABLE
      else
        (if merging then
           set_status "⛴ attempting to merge PR" (Some "updating branch")
             None
         else ret tt);;
        return_with_event NEEDS_UPDATE
  end.

Definition mergeability (merging : bool)
  : M (MergeabilityResponse * option queries.EventInfoResponse) :=
  log "info" "get_event";;
  e <- get_event;;
  set_event e;;
  self <- get_self;;
  match event self with
  | None =>
      log "info" "no event";;
      ret (NOT_MERGEABLE, None)
  | Some _ =>
      event <- self_event;;
      if negb (queries.isCrossRepository (queries.pull_request event))
         && negb (queries.head_exists event)
      then
        log "info" "branch deleted";;
        ret (NOT_MERGEABLE, None)
      else
        event <- self_event;;
        match queries.config event with
        | queries.Invalid error =>
            set_status "🚨 Invalid configuration"
              (Some ("Click " ++ DQUOTE ++ "Details" ++ DQUOTE
                     ++ " for more info."))
              (Some (get_markdown_for_config error
                       (queries.config_str event)
                       (queries.config_file_expression event)));;
            ret (NOT_MERGEABLE, None)
        | queries.Valid cfg =>
            log "info" "check mergeable";;
            match
              mergeable cfg GITHUB_APP_ID (queries.pull_request event)
                (queries.branch_protection event)
                (queries.review_requests event) (queries.reviews event)
                (queries.status_contexts event) (queries.check_runs event)
                (queries.valid_signature event)
                (queries.valid_merge_methods event)
            with
            | None =>
                log "info" "okay";;
                return_with_event OK
            | Some violation => handle_violation merging violation
            end
        end
  end.

Definition update : M bool :=
  log "info" "update";;
  event <- get_event;;
  match event with
  | None =>
      log "warning" "problem";;
      ret false
  | Some event =>
      self <- get_self;;
      let head := queries.baseRefName (queries.pull_request event) in
      let base := queries.headRefName (queries.pull_request event) in
      res <-
        request (queries.MergeBranch head base)
          (fun sent => queries.merge_branch (client self) sent head base);;
      if (queries.status_code res >? 300)%Z then
        log "error" "could not update branch";;
        ret false
      else ret true
  end.

Definition trigger_mergeability_check : M unit :=
  self <- get_self;;
  request (queries.GetPullRequest (number self)) (fun _ => tt).

Definition merge (event : queries.EventInfoResponse) : M bool :=
  match queries.config event with
  | queries.Invalid _ =>
      log "error" "we should never have a config error when we call merge";;
      ret false
  | queries.Valid cfg =>
      self <- get_self;;
      body <- lift (get_merge_body cfg (queries.pull_request event));;
      res <-
        request (queries.MergePullRequest (number self) body)
          (fun sent =>
             queries.merge_pull_request (client self) sent
               (number self) body);;
      if (queries.status_code res >? 300)%Z then
        log "info" "could not merge PR";;
        ret false
      else ret true
  end.

End methods.

Close Scope method_scope.

End PR.

(** ** What the specification speaks of *)

(** The table of section 4.4: the response for a classifier outcome, [None]
    being success. *)
Definition table_response (outcome : option errors.Violation)
    (cross_repository : bool) : MergeabilityResponse :=
  match outcome with
  | None => OK
  | Some (errors.MissingSkippableChecks _) => SKIPPABLE_CHECKS
  | Some errors.NotQueueable => NOT_MERGEABLE
  | Some errors.MergeConflict => NOT_MERGEABLE
  | Some errors.BranchMerged => NOT_MERGEABLE
  | Some (errors.MergeBlocked _) => NOT_MERGEABLE
  | Some errors.MissingAppID => NOT_MERGEABLE
  | Some errors.MissingGithubMergeabilityState => NEED_REFRESH
  | Some (errors.WaitingForChecks _) => WAIT
  | Some errors.NeedsBranchUpdate =>
      if cross_repository then NOT_MERGEABLE else NEEDS_UPDATE
  end.

Definition is_status_post (c : queries.Call) : bool :=
  match c with queries.CreateNotification _ _ _ => true | _ => false end.

Definition is_label_deletion (c : queries.Call) : bool :=
  match c with queries.SessionDelete _ _ => true | _ => false end.

Definition is_comment (c : queries.Call) : bool :=
  match c with queries.SessionPost _ _ _ => true | _ => false end.

Definition is_log_line (message : string) (c : queries.Call) : bool :=
  match c with
  | queries.Log _ m => String.eqb m message
  | _ => false
  end.

Definition count (p : queries.Call -> bool) (calls : list queries.Call) : nat :=
  length (List.filter p calls).

(** What a method sends out when run in world [w]. *)
Definition sent_during {A} (m : PR.M A) (w : PR.World) : list queries.Call :=
  skipn (length (PR.sent w)) (PR.sent (snd (m w))).

(** The first two statements of [mergeability]: what the fetch returns and
    the world it leaves. *)
Definition fetch_at_start : PR.M (option queries.EventInfoResponse) :=
  PR.bind (PR.log "info" "get_event") (fun _ => PR.get_event).

Definition snapshot_fetched (w : PR.World)
  : Result (option queries.EventInfoResponse) :=
  fst (fetch_at_start w).

(** Step 2 lets the evaluation go on. *)
Definition head_check_passes (event : queries.EventInfoResponse) : bool :=
  queries.isCrossRepository (queries.pull_request event)
  || queries.head_exists event.

(** The outcome of the classifier on a snapshot with a valid configuration. *)
Definition classify `{Imports} (cfg : config.V1)
    (event : queries.EventInfoResponse) : option errors.Violation :=
  mergeable cfg GITHUB_APP_ID (queries.pull_request event)
    (queries.branch_protection event) (queries.review_requests event)
    (queries.reviews event) (queries.status_contexts event)
    (queries.check_runs event) (queries.valid_signature event)
    (queries.valid_merge_methods event).

(** [" (#<number>)"] *)
Definition pr_number_suffix (pull_request : queries.PullRequest) : string :=
  " (#" ++ pretty (queries.number pull_request) ++ ")".

(** Building the payload cannot meet an unknown body format. *)
Definition body_format_known (cfg : config.V1) : bool :=
  let message := config.message (config.merge cfg) in
  negb (bool_decide (config.body message = config.pull_request_body))
  || match config.body_type message with
     | config.Format _ => true
     | config.NotAFormat _ => false
     end.

(** ** Further observations on the code *)

(** The comment spans the stripper collects for a message, in the order it
    collects them. *)
Definition comment_locations_of `{Imports} (raw_message : string)
  : list (nat * nat) :=
  let message := Str.remove_char Str.CR raw_message in
  fst (fold_left (collect_comments message) (find_html_positions message)
         ([], html_parser)).

(** Spans that start at or after [lo], each ending where it starts or
    later, none starting before the end of the one before it. *)
Fixpoint ascending (lo : nat) (spans : list (nat * nat)) : bool :=
  match spans with
  | [] => true
  | (span_start, span_end) :: rest =>
      Nat.leb lo span_start && Nat.leb span_start span_end
      && ascending span_end rest
  end.

(** The text of [message] from [lo] on that lies outside the spans: up to
    the first span, between one span and the next, after the last. *)
Fixpoint text_outside (lo : nat) (spans : list (nat * nat))
    (message : string) : string :=
  match spans with
  | [] => Str.slice_from message lo
  | (span_start, span_end) :: rest =>
      Str.slice message lo span_start ++ text_outside span_end rest message
  end.

(** A span as [handle_comment] records it: the comment text between a
    four-character opening and a three-character closing. *)
Definition spans_a_comment (location : nat * nat) : Prop :=
  fst location + 7 <= snd location.

Definition is_branch_deletion (c : queries.Call) : bool :=
  match c with queries.DeleteBranch _ => true | _ => false end.

Definition is_merge_request (c : queries.Call) : bool :=
  match c with
  | queries.MergeBranch _ _ => true
  | queries.MergePullRequest _ _ => true
  | _ => false
  end.

Definition is_fetch (c : queries.Call) : bool :=
  match c with
  | queries.GetDefaultBranchName => true
  | queries.GetEventInfo _ _ => true
  | _ => false
  end.

(** The first two statements of [update]. *)
Definition fetch_for_update : PR.M (option queries.EventInfoResponse) :=
  PR.bind (PR.log "info" "update") (fun _ => PR.get_event).

(** The fields [__eq__] compares. *)
Definition same_identity (a b : PR.t) : Prop :=
  PR.number a = PR.number b /\ PR.owner a = PR.owner b
  /\ PR.repo a = PR.repo b /\ PR.installation_id a = PR.installation_id b.

(** A request that changes something on the platform. *)
Definition is_write (c : queries.Call) : bool :=
  match c with
  | queries.CreateNotification _ _ _ => true
  | queries.DeleteBranch _ => true
  | queries.MergeBranch _ _ => true
  | queries.MergePullRequest _ _ => true
  | queries.SessionDelete _ _ => true
  | queries.SessionPost _ _ _ => true
  | _ => false
  end.

(** The object with [self.event] replaced. *)
Definition with_event (self : PR.t)
    (event : option queries.EventInfoResponse) : PR.t :=
  {| PR.number := PR.number self; PR.owner := PR.owner self;
     PR.repo := PR.repo self;
     PR.installation_id := PR.installation_id self;
     PR.event := event; PR.client := PR.client self |}.

(** How many statuses the [except] clauses post for an outcome. *)
Definition status_posts_for (outcome : option errors.Violation)
    (cross_repository merging : bool) : nat :=
  match outcome with
  | None => 0
  | Some (errors.MissingSkippableChecks _) => 1
  | Some errors.NotQueueable => 1
  | Some errors.MergeConflict => 1
  | Some errors.BranchMerged => 1
  | Some (errors.MergeBlocked _) => 1
  | Some errors.MissingAppID => 0
  | Some errors.MissingGithubMergeabilityState => 0
  | Some (errors.WaitingForChecks _) => if merging then 1 else 0
  | Some errors.NeedsBranchUpdate =>
      if cross_repository then 1 else if merging then 1 else 0
  end.

(** The object caches a snapshot whose valid configuration requires the
    automerge label. *)
Definition label_required (self : PR.t) : bool :=
  match PR.event self with
  | Some event =>
      match queries.config event with
      | queries.Valid cfg =>
          config.require_automerge_label (config.merge cfg)
      | queries.Invalid _ => false
      end
  | None => false
  end.

(** The message [set_status] builds from summary and detail. *)
Definition status_message (summary : string) (detail : option string)
  : string :=
  match detail with
  | Some detail => summary ++ " (" ++ detail ++ ")"
  | None => summary
  end.

(** What [set_status] fetches when no snapshot is cached. *)
Definition refetched (w : PR.World) : Result (option queries.EventInfoResponse) :=
  fst (PR.bind (PR.log "info" "missing event. attempting to fetch it.")
         (fun _ => PR.get_event) w).

(** The snapshot and the configuration the classifier is called with, when
    the evaluation gets that far: a snapshot was fetched, step 2 let it
    pass and its configuration is valid. *)
Definition classifier_input (fetched : option queries.EventInfoResponse)
  : option (queries.EventInfoResponse * config.V1) :=
  match fetched with
  | Some event =>
      if head_check_passes event then
        match queries.config event with
        | queries.Valid cfg => Some (event, cfg)
        | queries.Invalid _ => None
        end
      else None
  | None => None
  end.

(** ** Concrete inputs *)

Module fixtures.

(** Imports whose markdown analyser sees one HTML node spanning the
    message, whose HTML parser meets no comment, and whose classifier
    answers [outcome]. *)
Definition imports (outcome : option errors.Violation) : Imports := {|
  find_html_positions := fun message => [(0, String.length message)];
  html_feed := fun _ => [];
  py_str := fun _ => "<object>";
  repr_checks := fun checks => "[" ++ String.concat ", " checks ++ "]";
  str_violation := fun _ => "violation";
  dedent := fun text => text;
  get_markdown_for_config := fun _ config_str _ => config_str;
  GITHUB_APP_ID := PyInt 1;
  FORKS_CANNOT_BE_UPDATED := "forks cannot be updated";
  get_headers := fun _ => PyNone;
  mergeable := fun _ _ _ _ _ _ _ _ _ _ => outcome;
|}.


Definition message_cfg (title : config.MergeTitleStyle)
    (include_pr_number : bool) : config.MergeMessage := {|
  config.title := title;
  config.body := config.pull_request_body;
  config.include_pr_number := include_pr_number;
  config.body_type := config.Format config.markdown;
  config.strip_html_comments := true;
|}.

Definition cfg (title : config.MergeTitleStyle)
    (require_automerge_label : bool) : config.V1 := {|
  config.merge := {|
    config.method := {| config.value := "squash" |};
    config.message := message_cfg title true;
    config.automerge_label := "automerge";
    config.require_automerge_label := require_automerge_label;
    config.notify_on_conflict := true;
    config.delete_branch_on_merge := false;
  |}
|}.

Definition pull_request (title : string) (cross_repository : bool)
  : queries.PullRequest := {|
  queries.number := 7;
  queries.title := title;
  queries.body := "Hello";
  queries.bodyText := "Hello";
  queries.bodyHTML := "<p>Hello</p>";
  queries.latest_sha := "abc123";
  queries.baseRefName := "main";
  queries.headRefName := "feature";
  queries.isCrossRepository := cross_repository;
|}.

Definition event (cross_repository head_exists : bool)
  : queries.EventInfoResponse := {|
  queries.config := queries.Valid (cfg config.pull_request_title true);
  queries.config_str := "version = 1";
  queries.config_file_expression := "main:.kodiak.toml";
  queries.pull_request := pull_request "Fix bug" cross_repository;
  queries.head_exists := head_exists;
  queries.branch_protection := PyNone;
  queries.review_requests := PyList [];
  queries.reviews := PyList [];
  queries.status_contexts := PyList [];
  queries.check_runs := PyList [];
  queries.valid_signature := false;
  queries.valid_merge_methods := PyList [PyStr "squash"];
|}.

(** A platform that always gives the same answers. *)
Definition platform (snapshot : option queries.EventInfoResponse)
    (merge_status delete_status post_status : Z) : queries.Client := {|
  queries.get_default_branch_name := fun _ => Some "main";
  queries.get_event_info := fun _ _ _ => snapshot;
  queries.merge_branch := fun _ _ _ => {| queries.status_code := merge_status |};
  queries.merge_pull_request :=
    fun _ _ _ => {| queries.status_code := merge_status |};
  queries.session_delete :=
    fun _ _ _ => {| queries.status_code := delete_status |};
  queries.session_post :=
    fun _ _ _ _ => {| queries.status_code := post_status |};
|}.

(** A new [PR] object on that platform; nothing has been sent yet. *)
Definition world (client : queries.Client) : PR.World := {|
  PR.self := PR.__init__ 7 "octo" "demo" "42" client;
  PR.sent := [];
|}.

(** The same object with a snapshot already cached in [self.event]. *)
Definition world_with_event (client : queries.Client)
    (event : queries.EventInfoResponse) : PR.World :=
  snd (PR.set_event (Some event) (world client)).

End fixtures.

(** ** More concrete inputs *)

Module samples.

(** A line with two HTML comments, each an HTML node of its own. *)
Definition commented_text : string := "a<!--x-->b<!--y-->c".

(** Imports whose markdown analyser and HTML parser find those two
    comments; the rest is as in [fixtures.imports]. *)
Definition imports (outcome : option errors.Violation) : Imports := {|
  find_html_positions :=
    fun message =>
      if String.eqb message commented_text then [(1, 9); (10, 18)] else [];
  html_feed :=
    fun html_text =>
      if String.eqb html_text "<!--x-->" then [(0, "x")]
      else if String.eqb html_text "<!--y-->" then [(0, "y")]
      else [];
  py_str := @py_str (fixtures.imports outcome);
  repr_checks := @repr_checks (fixtures.imports outcome);
  str_violation := @str_violation (fixtures.imports outcome);
  dedent := @dedent (fixtures.imports outcome);
  get_markdown_for_config :=
    @get_markdown_for_config (fixtures.imports outcome);
  GITHUB_APP_ID := @GITHUB_APP_ID (fixtures.imports outcome);
  FORKS_CANNOT_BE_UPDATED :=
    @FORKS_CANNOT_BE_UPDATED (fixtures.imports outcome);
  get_headers := @get_headers (fixtures.imports outcome);
  mergeable := @mergeable (fixtures.imports outcome);
|}.

(** A pull request whose body is the commented line. *)
Definition commented_pull_request : queries.PullRequest := {|
  queries.number := 7;
  queries.title := "Fix bug";
  queries.body := commented_text;
  queries.bodyText := "abc";
  queries.bodyHTML := "<p>abc</p>";
  queries.latest_sha := "abc123";
  queries.baseRefName := "main";
  queries.headRefName := "feature";
  queries.isCrossRepository := false;
|}.

(** A snapshot with the given configuration. *)
Definition event_with (cfg : queries.ConfigOrError)
  : queries.EventInfoResponse := {|
  queries.config := cfg;
  queries.config_str := "version = ";
  queries.config_file_expression := "main:.kodiak.toml";
  queries.pull_request := commented_pull_request;
  queries.head_exists := true;
  queries.branch_protection := PyNone;
  queries.review_requests := PyList [];
  queries.reviews := PyList [];
  queries.status_contexts := PyList [];
  queries.check_runs := PyList [];
  queries.valid_signature := true;
  queries.valid_merge_methods := PyList [PyStr "squash"];
|}.

Definition invalid_event : queries.EventInfoResponse :=
  event_with (queries.Invalid (PyStr "invalid toml")).

(** A configuration that deletes merged branches and leaves the PR number
    out of the title. *)
Definition cfg_delete_branch : config.V1 := {|
  config.merge := {|
    config.method := {| config.value := "merge" |};
    config.message := fixtures.message_cfg config.pull_request_title false;
    config.automerge_label := "automerge";
    config.require_automerge_label := true;
    config.notify_on_conflict := true;
    config.delete_branch_on_merge := true;
  |}
|}.

Definition valid_event : queries.EventInfoResponse :=
  event_with (queries.Valid cfg_delete_branch).

(** A line that opens with a declaration that is no comment. *)
Definition bogus_text : string := "<!X> hello world".

(** Imports that answer on that line as the two libraries do: the markdown
    analyser reports the whole line as one HTML node, and the HTML parser
    takes [<!X>] for a bogus comment and calls [handle_comment] with the
    text [X] at offset 0.  The rest is as in [fixtures.imports]. *)
Definition bogus_imports : Imports := {|
  find_html_positions :=
    fun message =>
      if String.eqb message bogus_text then [(0, String.length bogus_text)]
      else [];
  html_feed :=
    fun html_text =>
      if String.eqb html_text bogus_text then [(0, "X")] else [];
  py_str := @py_str (fixtures.imports None);
  repr_checks := @repr_checks (fixtures.imports None);
  str_violation := @str_violation (fixtures.imports None);
  dedent := @dedent (fixtures.imports None);
  get_markdown_for_config := @get_markdown_for_config (fixtures.imports None);
  GITHUB_APP_ID := @GITHUB_APP_ID (fixtures.imports None);
  FORKS_CANNOT_BE_UPDATED := @FORKS_CANNOT_BE_UPDATED (fixtures.imports None);
  get_headers := @get_headers (fixtures.imports None);
  mergeable := @mergeable (fixtures.imports None);
|}.

(** A pull request whose body is that line. *)
Definition bogus_pull_request : queries.PullRequest := {|
  queries.number := 7;
  queries.title := "Fix bug";
  queries.body := bogus_text;
  queries.bodyText := "hello world";
  queries.bodyHTML := "<p>hello world</p>";
  queries.latest_sha := "abc123";
  queries.baseRefName := "main";
  queries.headRefName := "feature";
  queries.isCrossRepository := false;
|}.

(** A platform that knows no default branch. *)
Definition platform_without_branch : queries.Client := {|
  queries.get_default_branch_name := fun _ => None;
  queries.get_event_info := fun _ _ _ => Some valid_event;
  queries.merge_branch := fun _ _ _ => {| queries.status_code := 200 |};
  queries.merge_pull_request :=
    fun _ _ _ => {| queries.status_code := 200 |};
  queries.session_delete := fun _ _ _ => {| queries.status_code := 200 |};
  queries.session_post := fun _ _ _ _ => {| queries.status_code := 201 |};
|}.

End samples.

(** ** Properties *)

Section properties.
Context `{Imports}.

(** *** Python strings *)

Lemma remove_char_absent c s :
  Str.contains_char c s = false -> Str.remove_char c s = s.
Proof.
  induction s as [|d s IH]; simpl; [reflexivity|].
  destruct (Ascii.eqb d c); simpl; [discriminate|].
  intros Hs. now rewrite IH.
Qed.

Lemma remove_char_removes c s :
  Str.contains_char c (Str.remove_char c s) = false.
Proof.
  induction s as [|d s IH]; simpl; [reflexivity|].
  destruct (Ascii.eqb d c) eqn:E; simpl; [assumption|].
  now rewrite E.
Qed.

(** *** The comment stripper *)

(** When every feed returns, the module-level parser is left as it was
    found: every turn of the loop ends in [reset], and [reset] gives back
    the state of a new parser. *)
Lemma collect_comments_resets message acc position :
  snd (collect_comments message acc position) = html_parser.
Proof. destruct acc as [locs p], position as [a b]. reflexivity. Qed.

Lemma strip_leaves_parser_reset raw_message :
  snd (strip_html_comments_from_markdown_with html_parser raw_message)
  = html_parser.
Proof.
  unfold strip_html_comments_from_markdown_with.
  set (message := Str.remove_char Str.CR raw_message).
  assert (Hinv : forall positions acc,
             snd acc = html_parser ->
             snd (fold_left (collect_comments message) positions acc)
             = html_parser).
  { induction positions as [|p ps IH]; intros acc Hacc; simpl; [assumption|].
    apply IH, collect_comments_resets. }
  specialize (Hinv (find_html_positions message) ([], html_parser) eq_refl).
  destruct (fold_left _ _ _) as [locs p]. exact Hinv.
Qed.




(** *** The body content resolver *)

(** The dispatch of the resolver: markdown gives the raw body, or what the
    stripper returns for it when the flag is set; plain_text gives the
    rendered plain text; html gives the rendered HTML; any value that is
    none of the three raises the unknown body_type exception. *)
Lemma get_body_content_by_format (strip_html_comments : bool)
    (pull_request : queries.PullRequest) :
  get_body_content (config.Format config.markdown) strip_html_comments
    pull_request
  = Return (if strip_html_comments
            then strip_html_comments_from_markdown
                   (queries.body pull_request)
            else queries.body pull_request)
  /\ get_body_content (config.Format config.plain_text) strip_html_comments
       pull_request
     = Return (queries.bodyText pull_request)
  /\ get_body_content (config.Format config.html) strip_html_comments
       pull_request
     = Return (queries.bodyHTML pull_request)
  /\ forall o : PyObject,
       get_body_content (config.NotAFormat o) strip_html_comments
         pull_request
       = Raise (Exception ("Unknown body_type: " ++ py_str o)).
Proof.
  repeat split; try reflexivity.
  unfold get_body_content; simpl. now destruct strip_html_comments.
Qed.

(** *** The merge body builder *)

Lemma length_append (s t : string) :
  String.length (s ++ t) = String.length s + String.length t.
Proof. induction s as [|c s IH]; simpl; [reflexivity|now rewrite IH]. Qed.

Lemma endswith_app (s suffix : string) :
  Str.endswith (s ++ suffix) suffix = true.
Proof.
  unfold Str.endswith. apply String.eqb_eq.
  rewrite length_append.
  replace (String.length s + String.length suffix - String.length suffix)
    with (String.length s) by lia.
  induction s as [|c s IH]; simpl; [|assumption].
  now destruct suffix.
Qed.

(** C7, as the code has it: with include_pr_number enabled and a PR title
    that is not empty, title style "use PR title" gives a commit_title
    that is the title followed by " (#<number>)", appended once; with no
    title style configured the payload has no commit_title and nothing is
    appended. *)
Theorem get_merge_body_appends_pr_number (cfg : config.V1)
    (pull_request : queries.PullRequest) :
  body_format_known cfg = true ->
  config.include_pr_number (config.message (config.merge cfg)) = true ->
  queries.title pull_request <> EmptyString ->
  exists payload : gmap string string,
    get_merge_body cfg pull_request = Return payload
    /\ payload !! "commit_title"
       = match config.title (config.message (config.merge cfg)) with
         | config.pull_request_title =>
             Some (queries.title pull_request
                   ++ pr_number_suffix pull_request)
         | config.title_style_unset => None
         end
    /\ Str.endswith
         (queries.title pull_request ++ pr_number_suffix pull_request)
         (pr_number_suffix pull_request) = true.
Proof.
  destruct cfg as [[method [title_style body_style include body_type strip]
                     label require notify delete]].
  unfold body_format_known, get_merge_body; simpl.
  intros Hknown -> Hne.
  assert (Htruthy : Str.truthy (queries.title pull_request) = true)
    by (destruct (queries.title pull_request); [congruence|reflexivity]).
  assert (exists body, (if bool_decide (body_style = config.pull_request_body)
           then result_bind
                  (get_body_content body_type strip pull_request)
                  (fun body => Return (<["commit_message" := body]>
                     ({[ "merge_method" := config.value method ]}
                        : gmap string string)))
           else Return {[ "merge_method" := config.value method ]})
          = Return body /\ body !! "commit_title" = None) as (m & -> & Hm).
  { destruct body_style; simpl.
    - unfold get_body_content.
      destruct body_type as [[]|o], strip; simpl in *; try discriminate;
        eexists; (split; [reflexivity|]); now simplify_map_eq.
    - eexists; (split; [reflexivity|]); now simplify_map_eq.
    - eexists; (split; [reflexivity|]); now simplify_map_eq. }
  simpl. eexists. split; [reflexivity|]. split; [|apply endswith_app].
  destruct title_style; simpl.
  - rewrite lookup_insert_eq. simpl. rewrite Htruthy.
    now rewrite lookup_insert_eq.
  - destruct (bool_decide (body_style = config.empty));
      simplify_map_eq; assumption.
Qed.

(** *** Equality of PR objects *)

(** C10: two PR objects are equal exactly when number, owner, repo and
    installation id agree; the cached snapshot and the client play no
    part; comparing with anything that is not a PR raises
    NotImplementedError. *)
Theorem PR_eq_compares_identity (a b : PR.t) :
  PR.__eq__ a (PR.IsPR b)
  = Return (bool_decide (PR.number a = PR.number b
                         /\ PR.owner a = PR.owner b
                         /\ PR.repo a = PR.repo b
                         /\ PR.installation_id a = PR.installation_id b))
  /\ (forall e1 c1 e2 c2,
        PR.__eq__
          {| PR.number := PR.number a; PR.owner := PR.owner a;
             PR.repo := PR.repo a;
             PR.installation_id := PR.installation_id a;
             PR.event := e1; PR.client := c1 |}
          (PR.IsPR
             {| PR.number := PR.number b; PR.owner := PR.owner b;
                PR.repo := PR.repo b;
                PR.installation_id := PR.installation_id b;
                PR.event := e2; PR.client := c2 |})
        = PR.__eq__ a (PR.IsPR b))
  /\ (forall o : PyObject,
        PR.__eq__ a (PR.NotPR o) = Raise NotImplementedError).
Proof.
  split; [|split; reflexivity].
  unfold PR.__eq__. f_equal. symmetry.
  destruct (Z.eqb_spec (PR.number a) (PR.number b)),
    (String.eqb_spec (PR.owner a) (PR.owner b)),
    (String.eqb_spec (PR.repo a) (PR.repo b)),
    (String.eqb_spec (PR.installation_id a) (PR.installation_id b));
    simpl;
    first [ apply bool_decide_eq_true_2; tauto
          | apply bool_decide_eq_false_2; tauto ].
Qed.

(** *** Running a method *)

Lemma count_app p (l k : list queries.Call) :
  count p (l ++ k) = count p l + count p k.
Proof. unfold count. now rewrite List.filter_app, List.length_app. Qed.

Lemma sent_during_app {A} (m : PR.M A) (w : PR.World) calls :
  PR.sent (snd (m w)) = (PR.sent w ++ calls)%list ->
  sent_during m w = calls.
Proof. unfold sent_during. intros ->. apply drop_app_length. Qed.

(** What the fetch at the start leaves behind when it yields a snapshot:
    the object is untouched, three calls were sent, and the platform gave
    the snapshot in answer to the last. *)
Lemma fetch_at_start_yields w event :
  snapshot_fetched w = Return (Some event) ->
  exists branch,
    fetch_at_start w
    = (Return (Some event),
       {| PR.self := PR.self w;
          PR.sent :=
            (PR.sent w
             ++ [queries.Log "info" "get_event"; queries.GetDefaultBranchName;
                 queries.GetEventInfo
                   (create_git_revision_expression branch CONFIG_FILE_PATH)
                   (PR.number (PR.self w))])%list |}).
Proof.
  unfold snapshot_fetched, fetch_at_start, PR.get_event, PR.bind, PR.log,
    PR.request, PR.get_self, PR.ret; simpl.
  destruct (queries.get_default_branch_name _ _) as [branch|]; simpl;
    [|discriminate].
  intros [= ->]. exists branch. now rewrite <- !app_assoc.
Qed.

(** [mergeability] is the fetch followed by the evaluation of what was
    fetched. *)
Lemma mergeability_after_fetch merging w event w1 :
  fetch_at_start w = (Return (Some event), w1) ->
  PR.mergeability merging w
  = PR.bind (PR.set_event (Some event))
      (fun _ =>
         if negb (queries.isCrossRepository (queries.pull_request event))
            && negb (queries.head_exists event)
         then PR.bind (PR.log "info" "branch deleted")
                (fun _ => PR.ret (NOT_MERGEABLE, None))
         else
           match queries.config event with
           | queries.Invalid error =>
               PR.bind
                 (PR.set_status "🚨 Invalid configuration"
                    (Some ("Click " ++ DQUOTE ++ "Details" ++ DQUOTE
                           ++ " for more info."))
                    (Some (get_markdown_for_config error
                             (queries.config_str event)
                             (queries.config_file_expression event))))
                 (fun _ => PR.ret (NOT_MERGEABLE, None))
           | queries.Valid cfg =>
               PR.bind (PR.log "info" "check mergeable")
                 (fun _ =>
                    match classify cfg event with
                    | None =>
                        PR.bind (PR.log "info" "okay")
                          (fun _ => PR.return_with_event OK)
                    | Some violation =>
                        PR.handle_violation merging violation
                    end)
           end) w1.
Proof.
  unfold fetch_at_start, PR.mergeability, classify.
  unfold PR.bind at 1 2 3. unfold PR.bind at 1 2.
  destruct (PR.log "info" "get_event" w) as [[[]|x] w0]; [|discriminate].
  destruct (PR.get_event w0) as [[e|x] w1']; [|discriminate].
  intros [= -> ->].
  unfold PR.bind, PR.set_event, PR.get_self, PR.self_event; simpl.
  destruct (negb _ && negb _); [reflexivity|]. simpl.
  destruct (queries.config event) as [cfg|error]; simpl; [|reflexivity].
  destruct (mergeable _ _ _ _ _ _ _ _ _ _); reflexivity.
Qed.

Ltac run_method :=
  unfold PR.handle_violation, PR.set_status, PR.notify_pr_creator,
    PR.delete_label, PR.create_comment, PR.return_with_event,
    PR.self_event_config_merge, PR.self_event, PR.bind, PR.ret, PR.raise,
    PR.log, PR.request, PR.get_self, PR.set_event;
  simpl.

Ltac split_on_flags :=
  repeat match goal with
         | |- context [if ?b then _ else _] => destruct b; simpl
         end.

(** *** The evaluator *)

(** C1: when a snapshot is obtained, the head check passes and the
    configuration is valid, mergeability returns the response the table
    of section 4.4 gives for the classifier outcome, paired with the
    snapshot fetched at the start of the call. *)
Theorem mergeability_follows_table (merging : bool) (w : PR.World)
    (event : queries.EventInfoResponse) (cfg : config.V1) :
  snapshot_fetched w = Return (Some event) ->
  head_check_passes event = true ->
  queries.config event = queries.Valid cfg ->
  fst (PR.mergeability merging w)
  = Return
      (table_response (classify cfg event)
         (queries.isCrossRepository (queries.pull_request event)),
       Some event).
Proof.
  intros Hfetch Hhead Hcfg.
  destruct (fetch_at_start_yields _ _ Hfetch) as [branch Hw1].
  rewrite (mergeability_after_fetch _ _ _ _ Hw1).
  unfold head_check_passes in Hhead.
  replace (negb (queries.isCrossRepository (queries.pull_request event))
           && negb (queries.head_exists event)) with false
    by (destruct (queries.isCrossRepository _), (queries.head_exists _);
        simpl in *; congruence).
  rewrite Hcfg.
  destruct (classify cfg event) as [[]|]; run_method;
    repeat (first [rewrite Hcfg | progress split_on_flags]; simpl);
    reflexivity.
Qed.

(** C6: when the classifier raises WaitingForChecks, or NeedsBranchUpdate
    on a same-repository PR, one status is posted with merging=true and
    none with merging=false, and the response (WAIT, NEEDS_UPDATE) and the
    snapshot returned are the same in both cases. *)
Theorem status_posted_only_when_merging (w : PR.World)
    (event : queries.EventInfoResponse) (cfg : config.V1) :
  snapshot_fetched w = Return (Some event) ->
  head_check_passes event = true ->
  queries.config event = queries.Valid cfg ->
  (exists checks, classify cfg event = Some (errors.WaitingForChecks checks))
  \/ (classify cfg event = Some errors.NeedsBranchUpdate
      /\ queries.isCrossRepository (queries.pull_request event) = false) ->
  count is_status_post (sent_during (PR.mergeability true) w) = 1
  /\ count is_status_post (sent_during (PR.mergeability false) w) = 0
  /\ fst (PR.mergeability true w) = fst (PR.mergeability false w)
  /\ fst (PR.mergeability false w)
     = Return (match classify cfg event with
               | Some (errors.WaitingForChecks _) => WAIT
               | _ => NEEDS_UPDATE
               end, Some event).
Proof.
  intros Hfetch Hhead Hcfg Houtcome.
  destruct (fetch_at_start_yields _ _ Hfetch) as [branch Hw1].
  unfold sent_during.
  rewrite !(mergeability_after_fetch _ _ _ _ Hw1).
  unfold head_check_passes in Hhead.
  replace (negb (queries.isCrossRepository (queries.pull_request event))
           && negb (queries.head_exists event)) with false
    by (destruct (queries.isCrossRepository _), (queries.head_exists _);
        simpl in *; congruence).
  rewrite Hcfg.
  destruct Houtcome as [[checks ->]|[-> Hsame]]; run_method;
    rewrite ?Hsame; simpl; rewrite <- !app_assoc, !drop_app_length;
    repeat split; reflexivity.
Qed.

(** C5, as the code has it: a missing head ref ends the evaluation at step 2
    only for a same-repository PR, which gets (NOT_MERGEABLE, none) with the
    classifier not reached and no status posted.  A cross-repository PR
    with a missing head goes on: with a valid configuration the classifier
    is reached and the response is the one of the table, paired with the
    snapshot; with an invalid configuration it gets (NOT_MERGEABLE, none)
    after the invalid-configuration status. *)
Theorem missing_head_stops_same_repository_only (merging : bool)
    (w : PR.World) (event : queries.EventInfoResponse) :
  snapshot_fetched w = Return (Some event) ->
  queries.head_exists event = false ->
  let calls := sent_during (PR.mergeability merging) w in
  if queries.isCrossRepository (queries.pull_request event) then
    match queries.config event with
    | queries.Valid cfg =>
        fst (PR.mergeability merging w)
        = Return (table_response (classify cfg event) true, Some event)
        /\ count (is_log_line "check mergeable") calls = 1
        /\ count (is_log_line "branch deleted") calls = 0
    | queries.Invalid _ =>
        fst (PR.mergeability merging w) = Return (NOT_MERGEABLE, None)
        /\ count (is_log_line "check mergeable") calls = 0
        /\ count (is_log_line "branch deleted") calls = 0
        /\ count is_status_post calls = 1
    end
  else
    fst (PR.mergeability merging w) = Return (NOT_MERGEABLE, None)
    /\ count (is_log_line "check mergeable") calls = 0
    /\ count (is_log_line "branch deleted") calls = 1
    /\ count is_status_post calls = 0.
Proof.
  intros Hfetch Hhead.
  destruct (fetch_at_start_yields _ _ Hfetch) as [branch Hw1].
  unfold sent_during.
  rewrite !(mergeability_after_fetch _ _ _ _ Hw1), Hhead.
  destruct (queries.isCrossRepository (queries.pull_request event)) eqn:Hcross;
    simpl.
  - destruct (queries.config event) as [cfg|error] eqn:Hcfg.
    + destruct (classify cfg event) as [[]|]; run_method;
        repeat (first [rewrite Hcfg | rewrite Hcross
                      | progress split_on_flags]; simpl);
        rewrite <- !app_assoc, !drop_app_length; repeat split; reflexivity.
    + run_method. rewrite <- !app_assoc, !drop_app_length.
      repeat split; reflexivity.
  - run_method. rewrite <- !app_assoc, !drop_app_length.
    repeat split; reflexivity.
Qed.

(** *** The action orchestrator *)

(** What [update] returns on a platform that yields a snapshot and answers
    the branch merge with [status]. *)
Lemma update_result (w : PR.World) branch event status :
  (forall sent, queries.get_default_branch_name (PR.client (PR.self w)) sent
                = Some branch) ->
  (forall sent expression number,
      queries.get_event_info (PR.client (PR.self w)) sent expression number
      = Some event) ->
  (forall sent head base,
      queries.status_code
        (queries.merge_branch (PR.client (PR.self w)) sent head base)
      = status) ->
  fst (PR.update w) = Return (negb (status >? 300)%Z).
Proof.
  intros Hbranch Hevent Hstatus.
  unfold PR.update, PR.get_event. run_method.
  rewrite Hbranch; simpl. rewrite Hevent; simpl. rewrite Hstatus.
  now destruct (status >? 300)%Z.
Qed.

(** What [merge] returns for a snapshot with a valid configuration whose
    payload can be built, on a platform that answers with [status]. *)
Lemma merge_result (w : PR.World) event cfg status :
  queries.config event = queries.Valid cfg ->
  body_format_known cfg = true ->
  (forall sent number body,
      queries.status_code
        (queries.merge_pull_request (PR.client (PR.self w)) sent number body)
      = status) ->
  fst (PR.merge event w) = Return (negb (status >? 300)%Z).
Proof.
  intros Hcfg Hknown Hstatus.
  assert (exists payload,
             get_merge_body cfg (queries.pull_request event) = Return payload)
    as [payload Hpayload].
  { unfold get_merge_body, get_body_content, body_format_known in *.
    destruct cfg as [[method [title_style body_style include body_type strip]
                        label require notify delete]]; simpl in *.
    destruct body_style; simpl in *; try (eexists; reflexivity).
    destruct body_type as [[]|o], strip; simpl in *; try discriminate;
      eexists; reflexivity. }
  unfold PR.merge, PR.lift. rewrite Hcfg. run_method.
  rewrite Hpayload, Hstatus. now destruct (status >? 300)%Z.
Qed.

(** What [delete_label] returns on a platform that answers the deletion
    with [status]. *)
Lemma delete_label_result (w : PR.World) label status :
  (forall sent url headers,
      queries.status_code
        (queries.session_delete (PR.client (PR.self w)) sent url headers)
      = status) ->
  fst (PR.delete_label label w) = Return (negb (status =? 204)%Z).
Proof. intros Hstatus. run_method. now rewrite Hstatus. Qed.

(** What [create_comment] returns on a platform that answers the post with
    [status]. *)
Lemma create_comment_result (w : PR.World) body status :
  (forall sent url json headers,
      queries.status_code
        (queries.session_post (PR.client (PR.self w)) sent url json headers)
      = status) ->
  fst (PR.create_comment body w) = Return (negb (status =? 200)%Z).
Proof. intros Hstatus. run_method. now rewrite Hstatus. Qed.

(** What [notify_pr_creator] sends with a cached snapshot and a valid
    configuration: nothing when the label is not required; otherwise one
    label deletion and, after it, one comment unless the platform answered
    the deletion with 204. *)
Lemma notify_pr_creator_calls (w : PR.World) event cfg status :
  PR.event (PR.self w) = Some event ->
  queries.config event = queries.Valid cfg ->
  (forall sent url headers,
      queries.status_code
        (queries.session_delete (PR.client (PR.self w)) sent url headers)
      = status) ->
  let calls := sent_during PR.notify_pr_creator w in
  let required := config.require_automerge_label (config.merge cfg) in
  map (fun c => is_comment c)
    (List.filter (fun c => is_label_deletion c || is_comment c) calls)
  = (if required
     then false :: (if (status =? 204)%Z then [] else [true])
     else [])
  /\ (required = false -> calls = [])
  /\ ((status =? 204)%Z = true ->
      fst (PR.notify_pr_creator w) = Return false).
Proof.
  intros Hevent Hcfg Hstatus. unfold sent_during. run_method.
  rewrite Hevent, Hcfg.
  destruct (config.require_automerge_label (config.merge cfg)); simpl.
  - rewrite Hstatus. destruct (status =? 204)%Z; simpl;
      rewrite <- !app_assoc, drop_app_length; repeat split; try reflexivity;
      discriminate.
  - rewrite drop_all. repeat split; reflexivity.
Qed.

(** *** More on Python strings *)

Lemma append_cons c (a b : string) : String c a ++ b = String c (a ++ b).
Proof. reflexivity. Qed.

Lemma append_nil_l (b : string) : EmptyString ++ b = b.
Proof. reflexivity. Qed.

Lemma append_empty_r (s : string) : s ++ EmptyString = s.
Proof.
  induction s as [|c s IH]; [reflexivity|].
  change (String c (s ++ EmptyString) = String c s). now f_equal.
Qed.

Lemma append_assoc (a b c : string) : (a ++ b) ++ c = a ++ (b ++ c).
Proof.
  induction a as [|x a IH]; [reflexivity|].
  change (String x ((a ++ b) ++ c) = String x (a ++ (b ++ c))). now f_equal.
Qed.

Lemma slice_to_from (s : string) (n : nat) :
  Str.slice_to s n ++ Str.slice_from s n = s.
Proof.
  revert n. induction s as [|c s IH]; intros [|n]; simpl; try reflexivity.
  now rewrite append_cons, IH.
Qed.

Lemma slice_to_all (s : string) (n : nat) :
  String.length s <= n -> Str.slice_to s n = s.
Proof.
  revert n. induction s as [|c s IH]; intros [|n]; simpl; try reflexivity;
    try lia.
  intros Hn. rewrite IH by lia. reflexivity.
Qed.

Lemma slice_from_all (s : string) (n : nat) :
  String.length s <= n -> Str.slice_from s n = EmptyString.
Proof.
  revert n. induction s as [|c s IH]; intros [|n]; simpl; try reflexivity;
    try lia.
  intros Hn. apply IH. lia.
Qed.

Lemma length_slice_to (s : string) (n : nat) :
  String.length (Str.slice_to s n) = Nat.min n (String.length s).
Proof.
  revert n. induction s as [|c s IH]; intros [|n]; simpl; try reflexivity.
  now rewrite IH.
Qed.

Lemma length_slice_from (s : string) (n : nat) :
  String.length (Str.slice_from s n) = String.length s - n.
Proof.
  revert n. induction s as [|c s IH]; intros [|n]; simpl; try reflexivity.
  apply IH.
Qed.

Lemma slice_to_app_le (a b : string) (n : nat) :
  n <= String.length a -> Str.slice_to (a ++ b) n = Str.slice_to a n.
Proof.
  revert n. induction a as [|c a IH]; intros [|n]; simpl;
    rewrite ?append_cons, ?append_nil_l; simpl; try reflexivity.
  - now destruct b.
  - lia.
  - intros Hn. rewrite IH by lia. reflexivity.
Qed.

Lemma slice_from_app_length (a b : string) :
  Str.slice_from (a ++ b) (String.length a) = b.
Proof.
  induction a as [|c a IH]; simpl; rewrite ?append_cons, ?append_nil_l;
    simpl; [now destruct b|assumption].
Qed.

Lemma slice_to_slice_to (s : string) (n k : nat) :
  k <= n -> Str.slice_to (Str.slice_to s n) k = Str.slice_to s k.
Proof.
  revert n k. induction s as [|c s IH]; intros [|n] [|k]; simpl;
    try reflexivity; try lia.
  intros Hk. rewrite IH by lia. reflexivity.
Qed.

Lemma slice_to_split (s : string) (lo n : nat) :
  lo <= n -> Str.slice_to s lo ++ Str.slice s lo n = Str.slice_to s n.
Proof.
  unfold Str.slice. revert lo n.
  induction s as [|c s IH]; intros [|lo] [|n] Hn; simpl; try reflexivity;
    try lia.
  - now destruct (n - lo).
  - rewrite append_cons, IH by lia. reflexivity.
Qed.

Lemma contains_char_append c (a b : string) :
  Str.contains_char c (a ++ b)
  = Str.contains_char c a || Str.contains_char c b.
Proof.
  induction a as [|d a IH]; [reflexivity|].
  rewrite append_cons. simpl. rewrite IH. now destruct (Ascii.eqb d c).
Qed.

Lemma contains_char_slice_to c (s : string) (n : nat) :
  Str.contains_char c s = false ->
  Str.contains_char c (Str.slice_to s n) = false.
Proof.
  revert n. induction s as [|d s IH]; intros [|n]; simpl; try reflexivity.
  intros Hs. apply orb_false_elim in Hs as [-> Hs]. simpl. now apply IH.
Qed.

Lemma contains_char_slice_from c (s : string) (n : nat) :
  Str.contains_char c s = false ->
  Str.contains_char c (Str.slice_from s n) = false.
Proof.
  revert n. induction s as [|d s IH]; intros [|n]; simpl; try reflexivity;
    try (intros Hs; exact Hs).
  intros Hs. apply orb_false_elim in Hs as [_ Hs]. now apply IH.
Qed.

Lemma remove_char_idempotent c (s : string) :
  Str.remove_char c (Str.remove_char c s) = Str.remove_char c s.
Proof. apply remove_char_absent, remove_char_removes. Qed.

Lemma length_remove_char c (s : string) :
  String.length (Str.remove_char c s) <= String.length s.
Proof.
  induction s as [|d s IH]; simpl; [lia|].
  destruct (Ascii.eqb d c); simpl; lia.
Qed.

(** *** More on the comment stripper *)

(** X1: carriage returns play no part: a message and the same message with
    its carriage returns removed are stripped to the same text. *)
Theorem strip_ignores_carriage_returns (raw_message : string) :
  strip_html_comments_from_markdown raw_message
  = strip_html_comments_from_markdown
      (Str.remove_char Str.CR raw_message).
Proof.
  unfold strip_html_comments_from_markdown,
    strip_html_comments_from_markdown_with.
  now rewrite remove_char_idempotent.
Qed.

Lemma cut_comment_keeps_absent c (message : string) location :
  Str.contains_char c message = false ->
  Str.contains_char c (cut_comment message location) = false.
Proof.
  destruct location as [comment_start comment_end]. intros Hm.
  unfold cut_comment. rewrite contains_char_append.
  now rewrite contains_char_slice_to, contains_char_slice_from.
Qed.

Lemma cut_comments_keep_absent c locations (message : string) :
  Str.contains_char c message = false ->
  Str.contains_char c (fold_left cut_comment locations message) = false.
Proof.
  revert message. induction locations as [|l ls IH]; intros message Hm;
    simpl; [assumption|].
  now apply IH, cut_comment_keeps_absent.
Qed.

(** X2: whatever the markdown analyser and the HTML parser report, the
    stripped text holds no carriage return. *)
Theorem strip_result_has_no_carriage_return (raw_message : string) :
  Str.contains_char Str.CR (strip_html_comments_from_markdown raw_message)
  = false.
Proof.
  unfold strip_html_comments_from_markdown,
    strip_html_comments_from_markdown_with.
  destruct (fold_left _ _ _) as [locations parser]. simpl.
  apply cut_comments_keep_absent, remove_char_removes.
Qed.

Lemma feed_spans parser html_text :
  Forall spans_a_comment (CommentHTMLParser.comments parser) ->
  Forall spans_a_comment
    (CommentHTMLParser.comments (feed parser html_text)).
Proof.
  unfold feed. revert parser.
  induction (html_feed html_text) as [|[offset tag] events IH];
    intros parser Hp; simpl; [assumption|].
  apply IH. simpl. apply Forall_app. split; [assumption|].
  constructor; [|constructor]. unfold spans_a_comment. simpl. lia.
Qed.

Lemma collect_comments_spans message acc position :
  Forall spans_a_comment (fst acc) ->
  Forall spans_a_comment (CommentHTMLParser.comments (snd acc)) ->
  Forall spans_a_comment (fst (collect_comments message acc position))
  /\ Forall spans_a_comment
       (CommentHTMLParser.comments
          (snd (collect_comments message acc position))).
Proof.
  destruct acc as [locations parser], position as [html_start html_end].
  simpl. intros Hlocs Hparser. split; [|constructor].
  apply Forall_app. split; [assumption|].
  apply Forall_map.
  eapply Forall_impl; [apply feed_spans, Hparser|].
  intros [comment_start comment_end]. unfold spans_a_comment. simpl. lia.
Qed.

Lemma collected_locations_span_comments (raw_message : string) :
  Forall spans_a_comment (comment_locations_of raw_message).
Proof.
  unfold comment_locations_of.
  set (message := Str.remove_char Str.CR raw_message).
  assert (Hinv : forall positions acc,
             Forall spans_a_comment (fst acc) ->
             Forall spans_a_comment (CommentHTMLParser.comments (snd acc)) ->
             Forall spans_a_comment
               (fst (fold_left (collect_comments message) positions acc))).
  { induction positions as [|p ps IH]; intros acc Hl Hp; simpl; [assumption|].
    destruct (collect_comments_spans message acc p Hl Hp). now apply IH. }
  apply Hinv; constructor.
Qed.

Lemma length_cut_comment (message : string) location :
  spans_a_comment location ->
  String.length (cut_comment message location) <= String.length message.
Proof.
  destruct location as [comment_start comment_end].
  unfold spans_a_comment, cut_comment. simpl. intros Hspan.
  rewrite length_append, length_slice_to, length_slice_from. lia.
Qed.

Lemma length_cut_comments locations (message : string) :
  Forall spans_a_comment locations ->
  String.length (fold_left cut_comment locations message)
  <= String.length message.
Proof.
  revert message. induction locations as [|l ls IH]; intros message Hall;
    simpl; [lia|].
  inversion Hall as [|? ? Hl Hls]; subst.
  etransitivity; [apply IH, Hls|]. now apply length_cut_comment.
Qed.

(** X3: every span the stripper collects is at least the seven characters
    of the comment markers long, so stripping never makes a message
    longer, whatever the markdown analyser and the HTML parser report. *)
Theorem strip_never_lengthens (raw_message : string) :
  Forall (fun location => fst location + 7 <= snd location)
    (comment_locations_of raw_message)
  /\ String.length (strip_html_comments_from_markdown raw_message)
     <= String.length raw_message.
Proof.
  split; [apply collected_locations_span_comments|].
  pose proof (collected_locations_span_comments raw_message) as Hall.
  unfold comment_locations_of in Hall.
  unfold strip_html_comments_from_markdown,
    strip_html_comments_from_markdown_with.
  destruct (fold_left _ _ _) as [locations parser]. simpl in *.
  etransitivity; [apply length_cut_comments|apply length_remove_char].
  apply Forall_rev, Hall.
Qed.

Lemma text_outside_beyond (message : string) spans lo :
  String.length message <= lo ->
  ascending lo spans = true ->
  text_outside lo spans message = EmptyString.
Proof.
  revert lo. induction spans as [|[span_start span_end] rest IH];
    intros lo Hlo Hasc; simpl in *.
  - now apply slice_from_all.
  - apply andb_prop in Hasc as [Hasc Hrest].
    apply andb_prop in Hasc as [Hstart Hend].
    apply Nat.leb_le in Hstart, Hend.
    unfold Str.slice. rewrite (slice_from_all message lo) by assumption.
    rewrite IH by (assumption || lia). now destruct (span_start - lo).
Qed.

(** Cutting ascending spans out of a message, the last one first, leaves
    the text before [lo] and the text outside the spans after it. *)
Lemma cut_last_first (message : string) spans lo :
  ascending lo spans = true ->
  fold_right (fun location new_message => cut_comment new_message location)
    message spans
  = Str.slice_to message lo ++ text_outside lo spans message.
Proof.
  revert lo. induction spans as [|[span_start span_end] rest IH];
    intros lo Hasc; simpl in *.
  - now rewrite slice_to_from.
  - apply andb_prop in Hasc as [Hasc Hrest].
    apply andb_prop in Hasc as [Hstart Hend].
    apply Nat.leb_le in Hstart, Hend.
    rewrite (IH span_end Hrest). unfold cut_comment.
    rewrite <- append_assoc, slice_to_split by assumption.
    destruct (Nat.le_gt_cases span_end (String.length message)) as [Hin|Hout].
    + assert (Hlen : String.length (Str.slice_to message span_end) = span_end)
        by (rewrite length_slice_to; lia).
      pose proof (slice_from_app_length (Str.slice_to message span_end)
                    (text_outside span_end rest message)) as Hcut.
      rewrite Hlen in Hcut. rewrite Hcut.
      rewrite slice_to_app_le by lia.
      now rewrite slice_to_slice_to by assumption.
    + rewrite (text_outside_beyond message rest span_end) by (assumption || lia).
      rewrite append_empty_r, (slice_to_all message span_end) by lia.
      now rewrite (slice_from_all message span_end) by lia.
Qed.

Lemma cut_reversed (message : string) locations :
  fold_left cut_comment (rev locations) message
  = fold_right (fun location new_message => cut_comment new_message location)
      message locations.
Proof.
  induction locations as [|l ls IH]; simpl; [reflexivity|].
  rewrite fold_left_app. simpl. now rewrite IH.
Qed.

(** X4: when the collected spans are ascending and do not overlap, cutting
    them out last to first leaves exactly the text outside them: what
    precedes the first span, what lies between two spans, what follows the
    last, in that order. *)
Theorem strip_keeps_text_outside_comments (raw_message : string) :
  ascending 0 (comment_locations_of raw_message) = true ->
  strip_html_comments_from_markdown raw_message
  = text_outside 0 (comment_locations_of raw_message)
      (Str.remove_char Str.CR raw_message).
Proof.
  unfold comment_locations_of, strip_html_comments_from_markdown,
    strip_html_comments_from_markdown_with.
  destruct (fold_left _ _ _) as [locations parser]. simpl. intros Hasc.
  rewrite cut_reversed, (cut_last_first _ _ 0 Hasc).
  now destruct (Str.remove_char Str.CR raw_message).
Qed.


(** *** More on the merge body builder *)

Ltac payload_cases cfg :=
  destruct cfg as [[method [title_style body_style include body_type strip]
                      label require notify delete]];
  unfold get_merge_body, get_body_content; simpl;
  destruct body_style, title_style, include, body_type as [[]|o], strip;
  simpl.

(** X6: a payload that is built always carries the configured merge method
    under merge_method, and holds no key besides merge_method,
    commit_message and commit_title. *)
Theorem get_merge_body_fields (cfg : config.V1)
    (pull_request : queries.PullRequest) (payload : gmap string string) :
  get_merge_body cfg pull_request = Return payload ->
  payload !! "merge_method"
  = Some (config.value (config.method (config.merge cfg)))
  /\ forall key value,
       payload !! key = Some value ->
       key = "merge_method" \/ key = "commit_message"
       \/ key = "commit_title".
Proof.
  payload_cases cfg; try discriminate;
    try rewrite !lookup_insert_eq; simpl;
    try destruct (Str.truthy (queries.title pull_request));
    intros [= <-]; (split; [now simplify_map_eq|]);
    intros key value Hkey;
    repeat (apply lookup_insert_Some in Hkey as [[<- _]|[_ Hkey]];
            [tauto|]);
    apply lookup_singleton_Some in Hkey as [<- _]; tauto.
Qed.

(** X7: commit_message follows the body style alone: "empty" gives the
    empty string whatever the PR body and the body format are, "use PR
    body" gives what the body content resolver returns, and any other
    style leaves commit_message out of the payload. *)
Theorem get_merge_body_commit_message (cfg : config.V1)
    (pull_request : queries.PullRequest) (payload : gmap string string) :
  get_merge_body cfg pull_request = Return payload ->
  match config.body (config.message (config.merge cfg)) with
  | config.empty => payload !! "commit_message" = Some EmptyString
  | config.pull_request_body =>
      exists content,
        get_body_content
          (config.body_type (config.message (config.merge cfg)))
          (config.strip_html_comments (config.message (config.merge cfg)))
          pull_request = Return content
        /\ payload !! "commit_message" = Some content
  | config.body_style_unset => payload !! "commit_message" = None
  end.
Proof.
  payload_cases cfg; try discriminate;
    try rewrite !lookup_insert_eq; simpl;
    try destruct (Str.truthy (queries.title pull_request));
    intros [= <-]; try (eexists; split; [reflexivity|]);
    now simplify_map_eq.
Qed.

Lemma append_inj_l (a b c : string) : a ++ b = a ++ c -> b = c.
Proof.
  induction a as [|x a IH]; [now rewrite !append_nil_l|].
  rewrite !append_cons. intros [= Heq]. now apply IH.
Qed.

(** X8: the unknown body_type exception leaves get_merge_body exactly when
    the body style is "use PR body" and the body format is none of the
    three known ones, and it then names that format.  With any other body
    style the payload is built whatever the body format and the PR body
    are: the resolver is not called. *)
Theorem get_merge_body_unknown_format (cfg : config.V1)
    (pull_request : queries.PullRequest) :
  (forall description,
      get_merge_body cfg pull_request
      = Raise (Exception ("Unknown body_type: " ++ description))
      <-> config.body (config.message (config.merge cfg))
          = config.pull_request_body
          /\ exists o,
               config.body_type (config.message (config.merge cfg))
               = config.NotAFormat o
               /\ description = py_str o)
  /\ (config.body (config.message (config.merge cfg))
      <> config.pull_request_body ->
      exists payload, get_merge_body cfg pull_request = Return payload).
Proof.
  split.
  - intros description. split.
    + payload_cases cfg; try discriminate;
        try rewrite !lookup_insert_eq; simpl;
        try destruct (Str.truthy (queries.title pull_request));
        try discriminate;
        intros [= Heq]; apply append_inj_l in Heq;
        (split; [reflexivity|]); eexists; split; (reflexivity || congruence).
    + destruct cfg as [[method [title_style body_style include body_type
                                  strip] label require notify delete]]; simpl.
      intros [-> (o & -> & ->)]. reflexivity.
  - payload_cases cfg; intros Hstyle; try congruence; eexists; reflexivity.
Qed.

(** X9: with include_pr_number disabled the commit title is the PR title
    as it is, empty or not, under title style "use PR title", and is left
    out of the payload otherwise. *)
Theorem get_merge_body_title_without_number (cfg : config.V1)
    (pull_request : queries.PullRequest) (payload : gmap string string) :
  config.include_pr_number (config.message (config.merge cfg)) = false ->
  get_merge_body cfg pull_request = Return payload ->
  payload !! "commit_title"
  = match config.title (config.message (config.merge cfg)) with
    | config.pull_request_title => Some (queries.title pull_request)
    | config.title_style_unset => None
    end.
Proof.
  payload_cases cfg; try discriminate; intros _; try discriminate;
    intros [= <-]; now simplify_map_eq.
Qed.

(** *** More on the equality of PR objects *)

Lemma PR_eq_true (a b : PR.t) :
  PR.__eq__ a (PR.IsPR b) = Return true <-> same_identity a b.
Proof.
  unfold PR.__eq__, same_identity.
  destruct (Z.eqb_spec (PR.number a) (PR.number b)),
    (String.eqb_spec (PR.owner a) (PR.owner b)),
    (String.eqb_spec (PR.repo a) (PR.repo b)),
    (String.eqb_spec (PR.installation_id a) (PR.installation_id b));
    simpl; split; try discriminate; try tauto.
Qed.

(** X10: equality of PR objects is an equivalence: every PR equals itself,
    the comparison gives the same result in both directions, and two PRs
    equal to a third are equal; equal PRs have the same repr. *)
Theorem PR_eq_is_an_equivalence (a b c : PR.t) :
  PR.__eq__ a (PR.IsPR a) = Return true
  /\ PR.__eq__ a (PR.IsPR b) = PR.__eq__ b (PR.IsPR a)
  /\ (PR.__eq__ a (PR.IsPR b) = Return true ->
      PR.__eq__ b (PR.IsPR c) = Return true ->
      PR.__eq__ a (PR.IsPR c) = Return true)
  /\ (PR.__eq__ a (PR.IsPR b) = Return true ->
      PR.__repr__ a = PR.__repr__ b).
Proof.
  split; [apply PR_eq_true; repeat split|].
  split.
  { unfold PR.__eq__.
    now rewrite (Z.eqb_sym (PR.number a)), (String.eqb_sym (PR.owner a)),
      (String.eqb_sym (PR.repo a)), (String.eqb_sym (PR.installation_id a)). }
  split.
  - rewrite !PR_eq_true. unfold same_identity. intuition congruence.
  - rewrite PR_eq_true. unfold same_identity, PR.__repr__.
    intros (-> & -> & -> & _). reflexivity.
Qed.

(** *** More on the evaluator *)

(** The fetch at the start always returns: either with no snapshot, after
    asking for the default branch and possibly for the snapshot, or with
    the snapshot the platform gave. *)
Lemma fetch_at_start_runs (w : PR.World) :
  exists fetched calls,
    fetch_at_start w
    = (Return fetched,
       {| PR.self := PR.self w; PR.sent := (PR.sent w ++ calls)%list |})
    /\ (calls = [queries.Log "info" "get_event"; queries.GetDefaultBranchName]
        /\ fetched = None
        \/ exists branch,
            calls = [queries.Log "info" "get_event";
                     queries.GetDefaultBranchName;
                     queries.GetEventInfo
                       (create_git_revision_expression branch
                          CONFIG_FILE_PATH)
                       (PR.number (PR.self w))]).
Proof.
  unfold fetch_at_start, PR.get_event, PR.bind, PR.log, PR.request,
    PR.get_self, PR.ret; simpl.
  destruct (queries.get_default_branch_name _ _) as [branch|]; simpl.
  - eexists _, _. rewrite <- !app_assoc. simpl. split; [reflexivity|].
    right. now exists branch.
  - eexists _, _. rewrite <- !app_assoc. simpl. split; [reflexivity|].
    now left.
Qed.

Lemma fetch_at_start_result (w : PR.World) fetched w1 :
  fetch_at_start w = (Return fetched, w1) -> snapshot_fetched w = Return fetched.
Proof. unfold snapshot_fetched. now intros ->. Qed.

(** [mergeability] when the fetch yields nothing. *)
Lemma mergeability_no_snapshot merging w w1 :
  fetch_at_start w = (Return None, w1) ->
  PR.mergeability merging w
  = PR.bind (PR.set_event None)
      (fun _ =>
         PR.bind (PR.log "info" "no event")
           (fun _ => PR.ret (NOT_MERGEABLE, None))) w1.
Proof.
  unfold fetch_at_start, PR.mergeability.
  unfold PR.bind at 1 2 3. unfold PR.bind at 1 2.
  destruct (PR.log "info" "get_event" w) as [[[]|x] w0]; [|discriminate].
  destruct (PR.get_event w0) as [[e|x] w1']; [|discriminate].
  intros [= -> ->].
  unfold PR.bind, PR.set_event, PR.get_self; simpl. reflexivity.
Qed.

Ltac explore :=
  repeat (first
    [ match goal with
      | Hc : queries.config _ = _ |- _ => rewrite Hc
      | Ho : classify _ _ = _ |- _ => rewrite Ho
      | Hb : queries.isCrossRepository _ = _ |- _ => rewrite Hb
      end
    | progress split_on_flags
    | match goal with
      | |- context [match queries.config ?e with _ => _ end] =>
          destruct (queries.config e) eqn:?
      | |- context [match classify ?c ?e with _ => _ end] =>
          destruct (classify c e) as [[]|] eqn:?
      end ];
    simpl).

Ltac settle_calls Hcalls :=
  rewrite <- ?app_assoc, ?drop_app_length;
  destruct Hcalls as [[? ?]|[? ?]]; try discriminate; subst; simpl.

(** X11: when no snapshot can be fetched, mergeability returns
    (NOT_MERGEABLE, none), changes nothing on the platform, and leaves
    self.event empty even if a snapshot was cached before the call. *)
Theorem mergeability_without_snapshot (merging : bool) (w : PR.World) :
  snapshot_fetched w = Return None ->
  fst (PR.mergeability merging w) = Return (NOT_MERGEABLE, None)
  /\ PR.event (PR.self (snd (PR.mergeability merging w))) = None
  /\ count is_write (sent_during (PR.mergeability merging) w) = 0.
Proof.
  intros Hfetch.
  destruct (fetch_at_start_runs w) as (fetched & calls & Hw1 & Hcalls).
  pose proof (fetch_at_start_result _ _ _ Hw1) as Hsame.
  rewrite Hfetch in Hsame. injection Hsame as <-.
  unfold sent_during. rewrite (mergeability_no_snapshot _ _ _ Hw1).
  run_method. repeat split.
  rewrite <- !app_assoc, drop_app_length.
  destruct Hcalls as [[-> _]|[branch ->]]; reflexivity.
Qed.

(** X12: with a snapshot whose configuration is not valid, and the head
    check passed, mergeability returns (NOT_MERGEABLE, none) without
    reaching the classifier; the one change it makes on the platform is
    the invalid-configuration status on the snapshot's latest commit,
    with the rendered configuration error as its long form. *)
Theorem mergeability_invalid_configuration (merging : bool) (w : PR.World)
    (event : queries.EventInfoResponse) (error : PyObject) :
  snapshot_fetched w = Return (Some event) ->
  head_check_passes event = true ->
  queries.config event = queries.Invalid error ->
  let calls := sent_during (PR.mergeability merging) w in
  fst (PR.mergeability merging w) = Return (NOT_MERGEABLE, None)
  /\ List.filter is_write calls
     = [queries.CreateNotification
          (queries.latest_sha (queries.pull_request event))
          ("🚨 Invalid configuration (Click " ++ DQUOTE ++ "Details"
           ++ DQUOTE ++ " for more info.)")
          (Some (get_markdown_for_config error (queries.config_str event)
                   (queries.config_file_expression event)))]
  /\ count (is_log_line "check mergeable") calls = 0.
Proof.
  intros Hfetch Hhead Hcfg.
  destruct (fetch_at_start_yields _ _ Hfetch) as [branch Hw1].
  unfold sent_during.
  rewrite !(mergeability_after_fetch _ _ _ _ Hw1).
  unfold head_check_passes in Hhead.
  replace (negb (queries.isCrossRepository (queries.pull_request event))
           && negb (queries.head_exists event)) with false
    by (destruct (queries.isCrossRepository _), (queries.head_exists _);
        simpl in *; congruence).
  rewrite Hcfg. run_method. rewrite <- !app_assoc, drop_app_length.
  repeat split; reflexivity.
Qed.

(** X13: after mergeability, self.event holds what was fetched at the start
    of the call and the identity of the object is untouched, on every
    path: also when the method returns none as the snapshot because the
    branch was deleted or the configuration is invalid. *)
Theorem mergeability_caches_snapshot (merging : bool) (w : PR.World)
    (fetched : option queries.EventInfoResponse) :
  snapshot_fetched w = Return fetched ->
  PR.self (snd (PR.mergeability merging w)) = with_event (PR.self w) fetched.
Proof.
  intros Hfetch.
  destruct (fetch_at_start_runs w) as (fetched' & calls & Hw1 & Hcalls).
  pose proof (fetch_at_start_result _ _ _ Hw1) as Hsame.
  rewrite Hfetch in Hsame. injection Hsame as <-.
  destruct fetched as [event|].
  - rewrite (mergeability_after_fetch _ _ _ _ Hw1).
    run_method. explore; reflexivity.
  - rewrite (mergeability_no_snapshot _ _ _ Hw1). reflexivity.
Qed.

Ltac condition_core b :=
  lazymatch b with
  | negb ?c => condition_core c
  | ?c && _ => condition_core c
  | _ => b
  end.

Ltac split_on_conditions :=
  repeat match goal with
         | |- context [if ?b then _ else _] =>
             let c := condition_core b in destruct c; simpl
         end.

Ltac no_snapshot_case Hfetch w :=
  let fetched := fresh "fetched" in
  let calls := fresh "calls" in
  let Hw1 := fresh "Hw1" in
  let Hcalls := fresh "Hcalls" in
  let Hsame := fresh "Hsame" in
  destruct (fetch_at_start_runs w) as (fetched & calls & Hw1 & Hcalls);
  pose proof (fetch_at_start_result _ _ _ Hw1) as Hsame;
  rewrite Hfetch in Hsame; injection Hsame as <-;
  unfold sent_during; rewrite !(mergeability_no_snapshot _ _ _ Hw1);
  run_method; rewrite <- ?app_assoc, ?drop_app_length;
  destruct Hcalls as [[-> _]|[? ->]].

Ltac snapshot_case Hfetch :=
  let branch := fresh "branch" in
  let Hw1 := fresh "Hw1" in
  destruct (fetch_at_start_yields _ _ Hfetch) as [branch Hw1];
  unfold sent_during; rewrite !(mergeability_after_fetch _ _ _ _ Hw1);
  unfold classifier_input, head_check_passes.

Ltac run_outcome Hcfg Hcross :=
  run_method;
  repeat (first [rewrite Hcfg | rewrite Hcross
                | progress split_on_conditions]; simpl);
  rewrite <- ?app_assoc, ?drop_app_length.

(** X14: over collaborators that answer, the pair mergeability returns is
    fixed by what was fetched and by the outcome of the classifier, on
    every path: (NOT_MERGEABLE, none) when nothing was fetched, when the
    head of a same-repository PR is missing and when the configuration is
    not valid; otherwise the response of the table in section 4.4 with the
    snapshot fetched at the start.  So the snapshot in the pair is none
    only beside NOT_MERGEABLE. *)
Theorem mergeability_return_value (merging : bool) (w : PR.World)
    (fetched : option queries.EventInfoResponse) :
  snapshot_fetched w = Return fetched ->
  fst (PR.mergeability merging w)
  = Return
      match classifier_input fetched with
      | Some (event, cfg) =>
          (table_response (classify cfg event)
             (queries.isCrossRepository (queries.pull_request event)),
           Some event)
      | None => (NOT_MERGEABLE, None)
      end.
Proof.
  intros Hfetch. destruct fetched as [event|].
  - snapshot_case Hfetch.
    destruct (queries.isCrossRepository (queries.pull_request event))
      eqn:Hcross, (queries.head_exists event); simpl;
      try (run_method; reflexivity);
      (destruct (queries.config event) as [cfg|error] eqn:Hcfg;
       [|run_method; reflexivity]);
      destruct (classify cfg event) as [[]|]; run_outcome Hcfg Hcross;
      reflexivity.
  - no_snapshot_case Hfetch w; reflexivity.
Qed.

(** X15: one evaluation posts at most one status, and it never asks the
    platform to merge the pull request or to update its branch, on every
    platform and for every snapshot. *)
Theorem mergeability_posts_at_most_one_status (merging : bool)
    (w : PR.World) :
  count is_status_post (sent_during (PR.mergeability merging) w) <= 1
  /\ count is_merge_request (sent_during (PR.mergeability merging) w) = 0.
Proof.
  destruct (fetch_at_start_runs w) as (fetched & calls & Hw1 & Hcalls).
  unfold sent_during. destruct fetched as [event|].
  - rewrite (mergeability_after_fetch _ _ _ _ Hw1).
    run_method. explore; settle_calls Hcalls; unfold count; simpl; split;
      (reflexivity || lia).
  - rewrite (mergeability_no_snapshot _ _ _ Hw1). run_method.
    settle_calls Hcalls; unfold count; simpl; split;
      (reflexivity || lia).
Qed.

Ltac enter_table Hfetch Hhead Hcfg :=
  let branch := fresh "branch" in
  let Hw1 := fresh "Hw1" in
  destruct (fetch_at_start_yields _ _ Hfetch) as [branch Hw1];
  unfold sent_during;
  rewrite !(mergeability_after_fetch _ _ _ _ Hw1);
  unfold head_check_passes in Hhead;
  match goal with
  | |- context [negb (queries.isCrossRepository ?p) && negb ?h] =>
      replace (negb (queries.isCrossRepository p) && negb h) with false
        by (destruct (queries.isCrossRepository p), h;
            simpl in *; congruence)
  end;
  rewrite Hcfg.

(** X16: the statuses of the table: with a snapshot, the head check passed
    and a valid configuration, mergeability posts no status on success,
    MissingAppID and MissingGithubMergeabilityState; one status on
    MissingSkippableChecks, NotQueueable, MergeConflict, BranchMerged,
    MergeBlocked and on NeedsBranchUpdate for a fork; and on
    WaitingForChecks and NeedsBranchUpdate for a same-repository PR one
    status when merging and none otherwise.  Every status is keyed to the
    latest commit of the snapshot. *)
Theorem mergeability_status_posts (merging : bool) (w : PR.World)
    (event : queries.EventInfoResponse) (cfg : config.V1) :
  snapshot_fetched w = Return (Some event) ->
  head_check_passes event = true ->
  queries.config event = queries.Valid cfg ->
  let calls := sent_during (PR.mergeability merging) w in
  count is_status_post calls
  = status_posts_for (classify cfg event)
      (queries.isCrossRepository (queries.pull_request event)) merging
  /\ forall head_sha message summary,
       In (queries.CreateNotification head_sha message summary) calls ->
       head_sha = queries.latest_sha (queries.pull_request event).
Proof.
  intros Hfetch Hhead Hcfg. enter_table Hfetch Hhead Hcfg.
  destruct (classify cfg event) as [[]|]; run_method;
    repeat (first [rewrite Hcfg | progress split_on_flags]; simpl);
    rewrite <- !app_assoc, !drop_app_length;
    (split; [reflexivity|]);
    intros head_sha message summary Hin; simpl in Hin;
    repeat (destruct Hin as [Hin|Hin]; [congruence|]); destruct Hin.
Qed.

(** X17: on every path of mergeability the head branch is deleted in one
    case only: the evaluation reaches the classifier, the classifier
    raises BranchMerged and the configuration has delete_branch_on_merge;
    the branch deleted is the head ref of the snapshot.  Nothing is
    deleted when no snapshot is fetched, when step 2 ends the evaluation
    or when the configuration is not valid. *)
Theorem mergeability_deletes_merged_branch_only (merging : bool)
    (w : PR.World) (fetched : option queries.EventInfoResponse) :
  snapshot_fetched w = Return fetched ->
  List.filter is_branch_deletion (sent_during (PR.mergeability merging) w)
  = match classifier_input fetched with
    | Some (event, cfg) =>
        match classify cfg event with
        | Some errors.BranchMerged =>
            if config.delete_branch_on_merge (config.merge cfg)
            then [queries.DeleteBranch
                    (queries.headRefName (queries.pull_request event))]
            else []
        | _ => []
        end
    | None => []
    end.
Proof.
  intros Hfetch. destruct fetched as [event|].
  - snapshot_case Hfetch.
    destruct (queries.isCrossRepository (queries.pull_request event))
      eqn:Hcross, (queries.head_exists event); simpl;
      try (run_outcome Hcross Hcross; reflexivity);
      (destruct (queries.config event)
         as [[[method message label require notify delete]]|error] eqn:Hcfg;
       [|run_outcome Hcfg Hcross; reflexivity]);
      simpl;
      destruct (classify _ event) as [[]|], delete;
      run_outcome Hcfg Hcross; reflexivity.
  - no_snapshot_case Hfetch w; reflexivity.
Qed.

(** X18: on every path of mergeability the PR author is notified on a
    merge conflict only: the automerge label is deleted once when the
    evaluation reaches the classifier, the classifier raises MergeConflict
    and the configuration has both notify_on_conflict and
    require_automerge_label, and never otherwise, early exits included; no
    comment is created without that deletion; and on a merge conflict the
    cannot-merge status is the last change made, whatever the platform
    answered to the notification. *)
Theorem mergeability_notifies_on_conflict_only (merging : bool)
    (w : PR.World) (fetched : option queries.EventInfoResponse) :
  snapshot_fetched w = Return fetched ->
  let calls := sent_during (PR.mergeability merging) w in
  count is_label_deletion calls
  = match classifier_input fetched with
    | Some (event, cfg) =>
        match classify cfg event with
        | Some errors.MergeConflict =>
            if config.notify_on_conflict (config.merge cfg)
               && config.require_automerge_label (config.merge cfg)
            then 1 else 0
        | _ => 0
        end
    | None => 0
    end
  /\ count is_comment calls <= count is_label_deletion calls
  /\ (forall event cfg,
        classifier_input fetched = Some (event, cfg) ->
        classify cfg event = Some errors.MergeConflict ->
        last (List.filter is_write calls)
        = Some (queries.CreateNotification
                  (queries.latest_sha (queries.pull_request event))
                  ("🛑 cannot merge ("
                   ++ str_violation errors.MergeConflict ++ ")")
                  None)).
Proof.
  intros Hfetch. destruct fetched as [event|].
  - snapshot_case Hfetch.
    destruct (queries.isCrossRepository (queries.pull_request event))
      eqn:Hcross, (queries.head_exists event); simpl;
      try (run_outcome Hcross Hcross;
           (split; [reflexivity|]); (split; [unfold count; simpl; lia|]);
           intros ? ? [=]);
      (destruct (queries.config event)
         as [[[method message label require notify delete]]|error] eqn:Hcfg;
       [|run_outcome Hcfg Hcross;
         (split; [reflexivity|]); (split; [unfold count; simpl; lia|]);
         intros ? ? [=]]);
      simpl;
      destruct (classify _ event) as [[]|] eqn:Houtcome, require, notify;
      run_outcome Hcfg Hcross;
      (split; [reflexivity|]); (split; [unfold count; simpl; lia|]);
      intros event' cfg' [= <- <-] Hconflict;
      first [ congruence | reflexivity ].
  - no_snapshot_case Hfetch w;
      (split; [reflexivity|]); (split; [unfold count; simpl; lia|]);
      intros ? ? [=].
Qed.

(** *** More on the action orchestrator *)

(** X19: a status goes to the cached snapshot when there is one, with no
    fetch and no change to the object; without a cached snapshot one is
    fetched and kept in self.event, and the status is posted on it if the
    fetch yields one and dropped otherwise.  The message is
    "summary (detail)", or the summary alone without detail. *)
Theorem set_status_posts_on_a_snapshot (w : PR.World) (summary : string)
    (detail markdown_content : option string) :
  let run := PR.set_status summary detail markdown_content in
  match PR.event (PR.self w) with
  | Some event =>
      PR.self (snd (run w)) = PR.self w
      /\ List.filter (fun c => is_write c || is_fetch c)
           (sent_during run w)
         = [queries.CreateNotification
              (queries.latest_sha (queries.pull_request event))
              (status_message summary detail) markdown_content]
  | None =>
      exists fetched,
        refetched w = Return fetched
        /\ PR.self (snd (run w)) = with_event (PR.self w) fetched
        /\ List.filter is_write (sent_during run w)
           = match fetched with
             | Some event =>
                 [queries.CreateNotification
                    (queries.latest_sha (queries.pull_request event))
                    (status_message summary detail) markdown_content]
             | None => []
             end
  end.
Proof.
  unfold refetched, sent_during, status_message, with_event.
  run_method. unfold PR.get_event. run_method.
  destruct (PR.event (PR.self w)) as [event|] eqn:Hevent; simpl.
  - rewrite Hevent. simpl. rewrite <- ?app_assoc, ?drop_app_length.
    split; [now destruct w|reflexivity].
  - destruct (queries.get_default_branch_name _ _) as [branch|]; simpl.
    + destruct (queries.get_event_info _ _ _ _) as [event|]; simpl;
        rewrite <- ?app_assoc, ?drop_app_length;
        eexists; repeat split; reflexivity.
    + rewrite <- ?app_assoc, ?drop_app_length.
      eexists; repeat split; reflexivity.
Qed.

(** X20: update asks the platform once to merge the base ref into the
    head ref of the snapshot it fetches, and asks nothing when no snapshot
    can be fetched, returning false; unlike mergeability it leaves
    self.event as it was. *)
Theorem update_merges_base_into_head (w : PR.World)
    (fetched : option queries.EventInfoResponse) :
  fst (fetch_for_update w) = Return fetched ->
  PR.self (snd (PR.update w)) = PR.self w
  /\ List.filter is_write (sent_during PR.update w)
     = match fetched with
       | Some event =>
           [queries.MergeBranch
              (queries.baseRefName (queries.pull_request event))
              (queries.headRefName (queries.pull_request event))]
       | None => []
       end
  /\ (fetched = None -> fst (PR.update w) = Return false).
Proof.
  unfold fetch_for_update, sent_during, PR.update, PR.get_event. run_method.
  destruct (queries.get_default_branch_name _ _) as [branch|]; simpl.
  - destruct (queries.get_event_info _ _ _ _) as [event|]; simpl;
      intros [= <-]; split_on_flags;
      rewrite <- ?app_assoc, ?drop_app_length;
      repeat split; (reflexivity || discriminate).
  - intros [= <-]. rewrite <- ?app_assoc, ?drop_app_length.
    repeat split; reflexivity.
Qed.

(** X21: merge submits exactly the payload get_merge_body builds, for the
    number of the PR object; with an invalid configuration it returns
    false and changes nothing on the platform; when the payload cannot be
    built it raises the builder's exception before anything is sent.  It
    never changes the object. *)
Theorem merge_submits_the_built_payload (event : queries.EventInfoResponse)
    (w : PR.World) :
  PR.self (snd (PR.merge event w)) = PR.self w
  /\ match queries.config event with
     | queries.Invalid _ =>
         fst (PR.merge event w) = Return false
         /\ count is_write (sent_during (PR.merge event) w) = 0
     | queries.Valid cfg =>
         match get_merge_body cfg (queries.pull_request event) with
         | Return payload =>
             List.filter is_write (sent_during (PR.merge event) w)
             = [queries.MergePullRequest (PR.number (PR.self w)) payload]
         | Raise e =>
             fst (PR.merge event w) = Raise e
             /\ sent_during (PR.merge event) w = []
         end
     end.
Proof.
  unfold sent_during, PR.merge, PR.lift.
  destruct (queries.config event) as [cfg|error]; run_method.
  - destruct (get_merge_body cfg (queries.pull_request event))
      as [payload|e]; simpl.
    + split_on_flags; rewrite <- ?app_assoc, drop_app_length;
        split; reflexivity.
    + rewrite drop_all. repeat split; reflexivity.
  - rewrite drop_app_length. repeat split; reflexivity.
Qed.

(** X22: notify_pr_creator never changes the object.  It asks for the
    label deletion exactly when a snapshot is cached whose valid
    configuration requires the automerge label; otherwise it returns
    false and changes nothing on the platform.  A comment is never created
    without the label deletion, and the deletion is the first change it
    makes. *)
Theorem notify_pr_creator_deletes_label_first (w : PR.World) :
  let calls := sent_during PR.notify_pr_creator w in
  PR.self (snd (PR.notify_pr_creator w)) = PR.self w
  /\ count is_label_deletion calls
     = (if label_required (PR.self w) then 1 else 0)
  /\ count is_comment calls <= count is_label_deletion calls
  /\ match List.filter is_write calls with
     | [] => label_required (PR.self w) = false
     | first_write :: _ => is_label_deletion first_write = true
     end
  /\ (label_required (PR.self w) = false ->
      fst (PR.notify_pr_creator w) = Return false
      /\ count is_write calls = 0).
Proof.
  unfold sent_during, label_required. run_method.
  destruct (PR.event (PR.self w)) as [event|]; simpl.
  - destruct (queries.config event) as [cfg|error]; simpl.
    + destruct (config.require_automerge_label (config.merge cfg)); simpl;
        split_on_flags;
        rewrite <- ?app_assoc, ?drop_app_length, ?drop_all;
        unfold count; simpl;
        repeat split; (reflexivity || lia || discriminate).
    + rewrite drop_app_length. unfold count; simpl.
      repeat split; (reflexivity || lia).
  - rewrite drop_all. unfold count; simpl.
    repeat split; (reflexivity || lia).
Qed.

End properties.

(** ** The code at concrete inputs *)

(** C3, where the code departs from it: a platform that confirms the
    removal with 204 makes delete_label return false, and one that answers
    404 makes it return true; create_comment returns false on 200 and true
    on 500.  Each compares with [!=] where success is the code compared
    against. *)
Theorem delete_label_and_create_comment_negate_success :
  fst (@PR.delete_label (fixtures.imports None) "automerge"
         (fixtures.world (fixtures.platform None 200 204 200)))
  = Return false
  /\ fst (@PR.delete_label (fixtures.imports None) "automerge"
            (fixtures.world (fixtures.platform None 200 404 200)))
     = Return true
  /\ fst (@PR.create_comment (fixtures.imports None) "merge conflict"
            (fixtures.world (fixtures.platform None 200 204 200)))
     = Return false
  /\ fst (@PR.create_comment (fixtures.imports None) "merge conflict"
            (fixtures.world (fixtures.platform None 200 204 500)))
     = Return true.
Proof. repeat split; reflexivity. Qed.

(** C9, where the code departs from it: with format markdown and the flag
    set, a body that holds no comment, ["<!X> hello world"], does not come
    back as it is, nor without its declaration: the resolver returns
    ["lo world"].  The parser reports the four characters of [<!X>] as a
    comment with text [X], and [handle_comment] counts the seven
    characters of a [<!-- -->] pair around it.  Without the flag the body
    comes back raw. *)
Theorem get_body_content_cuts_into_the_text :
  Str.contains "<!--" (queries.body samples.bogus_pull_request) = false
  /\ @get_body_content samples.bogus_imports
       (config.Format config.markdown) true samples.bogus_pull_request
     = Return "lo world"
  /\ @get_body_content samples.bogus_imports
       (config.Format config.markdown) false samples.bogus_pull_request
     = Return "<!X> hello world".
Proof. repeat split. Qed.

(** C4, where the code departs from it: a response with status code 300
    makes update and merge return true; 301 is the first code that makes
    them return false.  The test is [> 300]. *)
Theorem update_and_merge_accept_status_300 :
  let event := fixtures.event false true in
  fst (PR.update (fixtures.world (fixtures.platform (Some event) 300 204 200)))
  = Return true
  /\ fst (@PR.merge (fixtures.imports None) event
            (fixtures.world (fixtures.platform (Some event) 300 204 200)))
     = Return true
  /\ fst (PR.update
            (fixtures.world (fixtures.platform (Some event) 301 204 200)))
     = Return false
  /\ fst (@PR.merge (fixtures.imports None) event
            (fixtures.world (fixtures.platform (Some event) 301 204 200)))
     = Return false.
Proof. repeat split; reflexivity. Qed.

(** C2, where the code departs from it: the policy requires the automerge
    label; when the platform confirms the removal with 204,
    notify_pr_creator deletes the label, creates no comment and returns
    false; when the removal fails with 404 it goes on to create the
    comment. *)
Theorem notify_pr_creator_comments_when_removal_fails :
  let event := fixtures.event false true in
  let confirmed :=
    fixtures.world_with_event (fixtures.platform (Some event) 200 204 200)
      event in
  let failed :=
    fixtures.world_with_event (fixtures.platform (Some event) 200 404 200)
      event in
  let notify := @PR.notify_pr_creator (fixtures.imports None) in
  (fst (notify confirmed) = Return false
   /\ count is_label_deletion (sent_during notify confirmed) = 1
   /\ count is_comment (sent_during notify confirmed) = 0)
  /\ (count is_label_deletion (sent_during notify failed) = 1
      /\ count is_comment (sent_during notify failed) = 1).
Proof. repeat split; reflexivity. Qed.

(** *** Inputs at which a sentence of the specification fails *)

(** C5 does not hold as written: a cross-repository PR whose head ref is
    missing, with a valid configuration and a satisfied policy, gets
    (OK, snapshot), not (NOT_MERGEABLE, none). *)
Lemma cross_repository_missing_head_is_evaluated :
  let event := fixtures.event true false in
  let w := fixtures.world (fixtures.platform (Some event) 200 204 200) in
  snapshot_fetched w = Return (Some event)
  /\ queries.isCrossRepository (queries.pull_request event) = true
  /\ queries.head_exists event = false
  /\ fst (@PR.mergeability (fixtures.imports None) false w)
     = Return (OK, Some event)
  /\ fst (@PR.mergeability (fixtures.imports None) false w)
     <> Return (NOT_MERGEABLE, None).
Proof. repeat split; try reflexivity. discriminate. Qed.

(** C7 does not hold for every title: with include_pr_number enabled and
    title style "use PR title", an empty PR title gives an empty
    commit_title, which does not end with " (#7)". *)
Lemma empty_title_gets_no_pr_number :
  let cfg := fixtures.cfg config.pull_request_title true in
  let pull_request := fixtures.pull_request EmptyString false in
  config.include_pr_number (config.message (config.merge cfg)) = true
  /\ config.title (config.message (config.merge cfg))
     = config.pull_request_title
  /\ exists payload : gmap string string,
       @get_merge_body (fixtures.imports None) cfg pull_request
       = Return payload
       /\ payload !! "commit_title" = Some EmptyString
       /\ Str.endswith EmptyString (pr_number_suffix pull_request) = false.
Proof.
  repeat split. eexists. split; [reflexivity|]. split; reflexivity.
Qed.


(** *** The theorems at concrete inputs *)

Lemma mergeability_follows_table_witness :
  let event := fixtures.event false true in
  let w := fixtures.world (fixtures.platform (Some event) 200 204 200) in
  let I := fixtures.imports (Some (errors.WaitingForChecks ["ci/test"])) in
  snapshot_fetched w = Return (Some event)
  /\ head_check_passes event = true
  /\ fst (@PR.mergeability I true w) = Return (WAIT, Some event).
Proof.
  split; [reflexivity|]. split; [reflexivity|].
  exact (@mergeability_follows_table
           (fixtures.imports (Some (errors.WaitingForChecks ["ci/test"])))
           true
           (fixtures.world
              (fixtures.platform (Some (fixtures.event false true))
                 200 204 200))
           (fixtures.event false true)
           (fixtures.cfg config.pull_request_title true)
           eq_refl eq_refl eq_refl).
Defined.

Lemma status_posted_only_when_merging_witness :
  let event := fixtures.event false true in
  let w := fixtures.world (fixtures.platform (Some event) 200 204 200) in
  let I := fixtures.imports (Some errors.NeedsBranchUpdate) in
  snapshot_fetched w = Return (Some event)
  /\ count is_status_post (sent_during (@PR.mergeability I true) w) = 1
  /\ count is_status_post (sent_during (@PR.mergeability I false) w) = 0
  /\ fst (@PR.mergeability I true w) = fst (@PR.mergeability I false w)
  /\ fst (@PR.mergeability I false w) = Return (NEEDS_UPDATE, Some event).
Proof.
  split; [reflexivity|].
  exact (@status_posted_only_when_merging
           (fixtures.imports (Some errors.NeedsBranchUpdate))
           (fixtures.world
              (fixtures.platform (Some (fixtures.event false true))
                 200 204 200))
           (fixtures.event false true)
           (fixtures.cfg config.pull_request_title true)
           eq_refl eq_refl eq_refl (or_intror (conj eq_refl eq_refl))).
Defined.

Lemma missing_head_stops_same_repository_only_witness :
  let event := fixtures.event false false in
  let w := fixtures.world (fixtures.platform (Some event) 200 204 200) in
  let I := fixtures.imports None in
  snapshot_fetched w = Return (Some event)
  /\ queries.head_exists event = false
  /\ fst (@PR.mergeability I true w) = Return (NOT_MERGEABLE, None)
  /\ count (is_log_line "check mergeable")
       (sent_during (@PR.mergeability I true) w) = 0
  /\ count (is_log_line "branch deleted")
       (sent_during (@PR.mergeability I true) w) = 1
  /\ count is_status_post (sent_during (@PR.mergeability I true) w) = 0.
Proof.
  split; [reflexivity|]. split; [reflexivity|].
  exact (@missing_head_stops_same_repository_only (fixtures.imports None)
           true
           (fixtures.world
              (fixtures.platform (Some (fixtures.event false false))
                 200 204 200))
           (fixtures.event false false) eq_refl eq_refl).
Defined.

Lemma get_merge_body_appends_pr_number_witness :
  let cfg := fixtures.cfg config.pull_request_title true in
  let pull_request := fixtures.pull_request "Fix bug" false in
  body_format_known cfg = true
  /\ exists payload : gmap string string,
       @get_merge_body (fixtures.imports None) cfg pull_request
       = Return payload
       /\ payload !! "commit_title" = Some "Fix bug (#7)"
       /\ Str.endswith "Fix bug (#7)" " (#7)" = true.
Proof.
  split; [reflexivity|].
  refine (@get_merge_body_appends_pr_number (fixtures.imports None)
            (fixtures.cfg config.pull_request_title true)
            (fixtures.pull_request "Fix bug" false) eq_refl eq_refl _).
  discriminate.
Defined.


(** *** The further theorems at concrete inputs *)

Lemma strip_keeps_text_outside_comments_witness :
  ascending 0
    (@comment_locations_of (samples.imports None) samples.commented_text)
  = true
  /\ @comment_locations_of (samples.imports None) samples.commented_text
     = [(1, 9); (10, 18)]
  /\ @strip_html_comments_from_markdown (samples.imports None)
       samples.commented_text = "abc".
Proof.
  split; [reflexivity|]. split; [reflexivity|].
  exact (@strip_keeps_text_outside_comments (samples.imports None)
           samples.commented_text eq_refl).
Defined.


Lemma get_merge_body_fields_witness :
  exists payload : gmap string string,
    @get_merge_body (samples.imports None) samples.cfg_delete_branch
      samples.commented_pull_request = Return payload
    /\ payload !! "merge_method" = Some "merge"
    /\ forall key value,
         payload !! key = Some value ->
         key = "merge_method" \/ key = "commit_message"
         \/ key = "commit_title".
Proof.
  eexists. split; [reflexivity|].
  exact (@get_merge_body_fields (samples.imports None)
           samples.cfg_delete_branch samples.commented_pull_request _
           eq_refl).
Defined.

Lemma get_merge_body_commit_message_witness :
  exists payload : gmap string string,
    @get_merge_body (samples.imports None) samples.cfg_delete_branch
      samples.commented_pull_request = Return payload
    /\ exists content,
         @get_body_content (samples.imports None)
           (config.Format config.markdown) true
           samples.commented_pull_request = Return content
         /\ payload !! "commit_message" = Some content.
Proof.
  eexists. split; [reflexivity|].
  exact (@get_merge_body_commit_message (samples.imports None)
           samples.cfg_delete_branch samples.commented_pull_request _
           eq_refl).
Defined.

Lemma get_merge_body_title_without_number_witness :
  exists payload : gmap string string,
    @get_merge_body (samples.imports None) samples.cfg_delete_branch
      samples.commented_pull_request = Return payload
    /\ payload !! "commit_title" = Some "Fix bug".
Proof.
  eexists. split; [reflexivity|].
  exact (@get_merge_body_title_without_number (samples.imports None)
           samples.cfg_delete_branch samples.commented_pull_request _
           eq_refl eq_refl).
Defined.

Lemma mergeability_without_snapshot_witness :
  let w :=
    fixtures.world_with_event samples.platform_without_branch
      samples.valid_event in
  PR.event (PR.self w) = Some samples.valid_event
  /\ snapshot_fetched w = Return None
  /\ fst (@PR.mergeability (fixtures.imports None) true w)
     = Return (NOT_MERGEABLE, None)
  /\ PR.event
       (PR.self (snd (@PR.mergeability (fixtures.imports None) true w)))
     = None
  /\ count is_write
       (sent_during (@PR.mergeability (fixtures.imports None) true) w) = 0.
Proof.
  split; [reflexivity|]. split; [reflexivity|].
  exact (@mergeability_without_snapshot (fixtures.imports None) true
           (fixtures.world_with_event samples.platform_without_branch
              samples.valid_event) eq_refl).
Defined.

Lemma mergeability_invalid_configuration_witness :
  let w :=
    fixtures.world
      (fixtures.platform (Some samples.invalid_event) 200 204 200) in
  let calls :=
    sent_during (@PR.mergeability (fixtures.imports None) false) w in
  snapshot_fetched w = Return (Some samples.invalid_event)
  /\ fst (@PR.mergeability (fixtures.imports None) false w)
     = Return (NOT_MERGEABLE, None)
  /\ List.filter is_write calls
     = [queries.CreateNotification "abc123"
          ("🚨 Invalid configuration (Click " ++ DQUOTE ++ "Details"
           ++ DQUOTE ++ " for more info.)")
          (Some "version = ")]
  /\ count (is_log_line "check mergeable") calls = 0.
Proof.
  split; [reflexivity|].
  exact (@mergeability_invalid_configuration (fixtures.imports None) false
           (fixtures.world
              (fixtures.platform (Some samples.invalid_event) 200 204 200))
           samples.invalid_event (PyStr "invalid toml")
           eq_refl eq_refl eq_refl).
Defined.

Lemma mergeability_caches_snapshot_witness :
  let event := fixtures.event false false in
  let w := fixtures.world (fixtures.platform (Some event) 200 204 200) in
  snapshot_fetched w = Return (Some event)
  /\ fst (@PR.mergeability (fixtures.imports None) false w)
     = Return (NOT_MERGEABLE, None)
  /\ PR.self (snd (@PR.mergeability (fixtures.imports None) false w))
     = with_event (PR.self w) (Some event).
Proof.
  split; [reflexivity|]. split; [reflexivity|].
  exact (@mergeability_caches_snapshot (fixtures.imports None) false
           (fixtures.world
              (fixtures.platform (Some (fixtures.event false false))
                 200 204 200))
           (Some (fixtures.event false false)) eq_refl).
Defined.

Lemma mergeability_status_posts_witness :
  let event := fixtures.event true true in
  let w := fixtures.world (fixtures.platform (Some event) 200 204 200) in
  let I := fixtures.imports (Some errors.NeedsBranchUpdate) in
  let calls := sent_during (@PR.mergeability I false) w in
  snapshot_fetched w = Return (Some event)
  /\ count is_status_post calls = 1
  /\ forall head_sha message summary,
       In (queries.CreateNotification head_sha message summary) calls ->
       head_sha = "abc123".
Proof.
  split; [reflexivity|].
  exact (@mergeability_status_posts
           (fixtures.imports (Some errors.NeedsBranchUpdate)) false
           (fixtures.world
              (fixtures.platform (Some (fixtures.event true true))
                 200 204 200))
           (fixtures.event true true)
           (fixtures.cfg config.pull_request_title true)
           eq_refl eq_refl eq_refl).
Defined.

Lemma mergeability_deletes_merged_branch_only_witness :
  let w :=
    fixtures.world
      (fixtures.platform (Some samples.valid_event) 200 204 200) in
  let I := fixtures.imports (Some errors.BranchMerged) in
  snapshot_fetched w = Return (Some samples.valid_event)
  /\ List.filter is_branch_deletion
       (sent_during (@PR.mergeability I false) w)
     = [queries.DeleteBranch "feature"].
Proof.
  split; [reflexivity|].
  exact (@mergeability_deletes_merged_branch_only
           (fixtures.imports (Some errors.BranchMerged)) false
           (fixtures.world
              (fixtures.platform (Some samples.valid_event) 200 204 200))
           (Some samples.valid_event) eq_refl).
Defined.

Lemma mergeability_notifies_on_conflict_only_witness :
  let w :=
    fixtures.world
      (fixtures.platform (Some samples.valid_event) 200 500 200) in
  let I := fixtures.imports (Some errors.MergeConflict) in
  let calls := sent_during (@PR.mergeability I false) w in
  snapshot_fetched w = Return (Some samples.valid_event)
  /\ count is_label_deletion calls = 1
  /\ count is_comment calls <= count is_label_deletion calls
  /\ last (List.filter is_write calls)
     = Some (queries.CreateNotification "abc123"
               "🛑 cannot merge (violation)" None).
Proof.
  split; [reflexivity|].
  pose proof (@mergeability_notifies_on_conflict_only
                (fixtures.imports (Some errors.MergeConflict)) false
                (fixtures.world
                   (fixtures.platform (Some samples.valid_event) 200 500 200))
                (Some samples.valid_event) eq_refl)
    as (Hdeletions & Hcomments & Hlast).
  split; [exact Hdeletions|]. split; [exact Hcomments|].
  exact (Hlast samples.valid_event samples.cfg_delete_branch
           eq_refl eq_refl).
Defined.

Lemma mergeability_return_value_witness :
  let event := fixtures.event false false in
  let w := fixtures.world (fixtures.platform (Some event) 200 204 200) in
  let forked := fixtures.event true false in
  let w' := fixtures.world (fixtures.platform (Some forked) 200 204 200) in
  let I := fixtures.imports (Some errors.NeedsBranchUpdate) in
  (snapshot_fetched w = Return (Some event)
   /\ fst (@PR.mergeability I true w) = Return (NOT_MERGEABLE, None))
  /\ (snapshot_fetched w' = Return (Some forked)
      /\ fst (@PR.mergeability I true w')
         = Return (NOT_MERGEABLE, Some forked)).
Proof.
  split; (split; [reflexivity|]).
  - exact (@mergeability_return_value
             (fixtures.imports (Some errors.NeedsBranchUpdate)) true
             (fixtures.world
                (fixtures.platform (Some (fixtures.event false false))
                   200 204 200))
             (Some (fixtures.event false false)) eq_refl).
  - exact (@mergeability_return_value
             (fixtures.imports (Some errors.NeedsBranchUpdate)) true
             (fixtures.world
                (fixtures.platform (Some (fixtures.event true false))
                   200 204 200))
             (Some (fixtures.event true false)) eq_refl).
Defined.

Lemma update_merges_base_into_head_witness :
  let w :=
    fixtures.world
      (fixtures.platform (Some samples.valid_event) 200 204 200) in
  fst (fetch_for_update w) = Return (Some samples.valid_event)
  /\ PR.self (snd (PR.update w)) = PR.self w
  /\ List.filter is_write (sent_during PR.update w)
     = [queries.MergeBranch "main" "feature"]
  /\ (Some samples.valid_event = None -> fst (PR.update w) = Return false).
Proof.
  split; [reflexivity|].
  exact (update_merges_base_into_head
           (fixtures.world
              (fixtures.platform (Some samples.valid_event) 200 204 200))
           (Some samples.valid_event) eq_refl).
Defined.
